(** * MassGen v2 agent backends: token accounting and response streaming

    A shallow embedding of [massgen/v2/agent_backend.py]: the [TokenUsage]
    accumulator, the [ChatCompletionsBackend] token estimate, the
    [OpenAIResponseBackend] streaming generator with its cost table, and
    the [create_backend] factory; then the budget-aware agent and the
    orchestrator that [tests/test_timeout.py] drives, after the
    specification; then the properties the specification states about
    them. *)

From Stdlib Require Import ZArith QArith List String Ascii Bool Lia Floats
  Permutation.
From Stdlib Require Uint63.
Import ListNotations.

Local Open Scope string_scope.
Local Open Scope Z_scope.

Set Warnings "-inexact-float,-register-all".

(** ** Python values

    A Python [str] is a Rocq [string] whose characters are its code
    points (restricted to U+0000..U+00FF); a Python [int] is a [Z]; a
    Python [float] is a binary64 [float]. *)

Module Py.

(** Instances of [Exception], the class the handler of
    [stream_with_tools] names: the class name and [str(e)].  Signals that
    derive from [BaseException] only (the cancellation of a task, the
    exit of the interpreter) are not failures of a backend and are not
    modelled. *)
Record Exc : Type := mkExc { exc_type : string; exc_str : string }.

(** The outcome of an expression that may raise. *)
Inductive result (A : Type) : Type :=
| Return (a : A)
| Raise (e : Exc).
Arguments Return {A} a.
Arguments Raise {A} e.

Definition bind {A B} (r : result A) (k : A -> result B) : result B :=
  match r with
  | Return a => k a
  | Raise e => Raise e
  end.

(** Dynamically typed values, as far as messages and tools need them. *)
Inductive Val : Type :=
| VNone
| VBool (b : bool)
| VInt (n : Z)
| VStr (s : string)
| VList (l : list Val)
| VDict (kv : list (string * Val)).

(** [bool(v)]. *)
Definition truthy (v : Val) : bool :=
  match v with
  | VNone => false
  | VBool b => b
  | VInt n => negb (n =? 0)
  | VStr s => negb (s =? "")%string
  | VList l => match l with [] => false | _ => true end
  | VDict kv => match kv with [] => false | _ => true end
  end.

(** [d.get(key)] on the items of a dict. *)
Fixpoint dict_get (kv : list (string * Val)) (key : string) : option Val :=
  match kv with
  | [] => None
  | (k, v) :: rest => if (k =? key)%string then Some v else dict_get rest key
  end.

(** [v == s] for a string literal [s]. *)
Definition eq_str (v : option Val) (s : string) : bool :=
  match v with
  | Some (VStr t) => (t =? s)%string
  | _ => false
  end.

(** [s.startswith(p)]. *)
Definition startswith (s p : string) : bool := String.prefix p s.

(** [s.endswith(p)]. *)
Definition endswith (s p : string) : bool :=
  let n := String.length s in
  let k := String.length p in
  (k <=? n)%nat && (substring (n - k) k s =? p)%string.

(** [s.replace(old, new)] for a non-empty [old]: every occurrence, left
    to right, without overlap.  [skip] counts the characters of the
    occurrence being replaced that are still to be dropped. *)
Fixpoint replace_from (skip : nat) (s old new : string) : string :=
  match s with
  | EmptyString => EmptyString
  | String c rest =>
      match skip with
      | S k => replace_from k rest old new
      | O =>
          if String.prefix old s
          then new ++ replace_from (String.length old - 1) rest old new
          else String c (replace_from O rest old new)
      end
  end.

Definition replace (s old new : string) : string := replace_from O s old new.

(** [c.lower()] on the code points below U+0100: the ASCII capitals and
    the Latin-1 capitals U+00C0..U+00DE other than the multiplication
    sign U+00D7 move up by 32; every other character is unchanged. *)
Definition lower_char (c : ascii) : ascii :=
  let n := nat_of_ascii c in
  if ((65 <=? n) && (n <=? 90))%nat then ascii_of_nat (n + 32)
  else if ((192 <=? n) && (n <=? 222) && negb (n =? 215))%nat
       then ascii_of_nat (n + 32)
       else c.

(** [s.lower()]. *)
Fixpoint lower (s : string) : string :=
  match s with
  | EmptyString => EmptyString
  | String c rest => String (lower_char c) (lower rest)
  end.

(** [sub in s] on two strings. *)
Fixpoint str_in (sub s : string) : bool :=
  String.prefix sub s
  || match s with
     | EmptyString => false
     | String _ rest => str_in sub rest
     end.

(** [isinstance(v, dict)]. *)
Definition is_dict (v : Val) : bool :=
  match v with
  | VDict _ => true
  | _ => false
  end.

(** [a / b] on two [int]s: the quotient rounded to the nearest float;
    [ZeroDivisionError] on a zero divisor and [OverflowError] when the
    quotient is beyond the largest float. *)
Definition Z2SF (n : Z) : spec_float :=
  match n with
  | Z0 => S754_zero false
  | Zpos p => S754_finite false p 0
  | Zneg p => S754_finite true p 0
  end.

Definition int_truediv (a b : Z) : result float :=
  if b =? 0 then Raise (mkExc "ZeroDivisionError" "division by zero")
  else
    let q := SF2Prim (SF64div (Z2SF a) (Z2SF b)) in
    if is_infinity q
    then Raise (mkExc "OverflowError"
                  "integer division result too large for a float")
    else Return q.

End Py.

Import Py.

(** ** [TokenUsage] (lines 16-39) *)

Module TokenUsage.

Record t : Type := mk {
  input_tokens : Z;
  output_tokens : Z;
  estimated_cost : float;
  model : option string;
  provider : option string;
  timestamp : option float
}.

(** [__post_init__]: [now] is the value of [time.time()]. *)
Definition post_init (now : float) (self : t) : t :=
  match timestamp self with
  | None =>
      mk (input_tokens self) (output_tokens self) (estimated_cost self)
         (model self) (provider self) (Some now)
  | Some _ => self
  end.

(** [TokenUsage()]: the dataclass defaults, then [__post_init__]. *)
Definition new (now : float) : t :=
  post_init now (mk 0 0 0%float None None None).

Definition add_usage (self : t) (input_tokens' output_tokens' : Z)
  (cost : float) : t :=
  mk (input_tokens self + input_tokens')
     (output_tokens self + output_tokens')
     (estimated_cost self + cost)%float
     (model self) (provider self) (timestamp self).

Definition get_total_tokens (self : t) : Z :=
  input_tokens self + output_tokens self.

(** The methods of the class, and an instance after a call. *)
Inductive Method : Type :=
| PostInit (now : float)
| AddUsage (input_tokens output_tokens : Z) (cost : float)
| GetTotalTokens.

Definition call (m : Method) (self : t) : t :=
  match m with
  | PostInit now => post_init now self
  | AddUsage i o c => add_usage self i o c
  | GetTotalTokens => self
  end.

Definition is_add_usage (m : Method) : bool :=
  match m with
  | AddUsage _ _ _ => true
  | _ => false
  end.

(** The arguments of one call of [add_usage], and a sequence of calls
    made in order on an instance. *)
Definition Call : Type := (Z * Z * float)%type.

Definition replay (calls : list Call) (self : t) : t :=
  fold_left (fun u '(i, o, c) => add_usage u i o c) calls self.

(** A call whose counts and cost are not negative. *)
Definition nonneg_call (c : Call) : bool :=
  let '(i, o, cost) := c in
  (0 <=? i) && (0 <=? o) && (0 <=? cost)%float.

(** The totals the claims are about. *)
Definition totals (self : t) : Z * Z * float :=
  (input_tokens self, output_tokens self, estimated_cost self).

(** Sums in the order of the calls; the floats are added one by one, as
    [+=] does. *)
Definition sum_Z (l : list Z) : Z := fold_left Z.add l 0.

Definition sum_float (start : float) (l : list float) : float :=
  fold_left PrimFloat.add l start.

End TokenUsage.

(** ** [StreamChunk] *)

(** Modelled from the spec: the class [StreamChunk] that line 13 imports
    from [chat_agent], a module that is not part of the sources.  The
    specification (section 3) gives it the fields [type], [content],
    [error], [source] and [status]; the code builds it by keyword, and a
    field that is not passed is [None]. *)
Module StreamChunk.

Record t : Type := mk {
  type : string;
  content : option string;
  error : option string;
  source : option string;
  status : option string
}.

Definition is_type (ty : string) (c : t) : bool := (type c =? ty)%string.

End StreamChunk.

(** ** The provider and the interpreter *)

Definition Dict : Type := list (string * Val).

(** The keyword arguments of [client.responses.create] (lines 221-269). *)
Record Params : Type := mkParams {
  p_model : string;
  p_stream : bool;
  p_instructions : option Val;
  p_input : list Dict;
  p_tools : option (list Val);
  p_temperature : option float;
  p_max_output_tokens : option Z;
  p_reasoning : option string
}.

(** The [usage] attribute of a completion event; an absent attribute is
    [None]. *)
Record Usage : Type := mkUsage {
  usage_input_tokens : option Z;
  usage_output_tokens : option Z
}.

(** An event of the provider's response stream, with the attributes the
    loop reads; [None] is an attribute the object does not have. *)
Record Event : Type := mkEvent {
  ev_type : option string;
  ev_delta : option string;
  ev_usage : option Usage
}.

(** The asynchronous iterator [response]: each [__anext__] ends the
    iteration, delivers an event, or raises. *)
Inductive AsyncStream : Type :=
| Stop
| Next (chunk : Event) (rest : AsyncStream)
| Throw (e : Exc).

(** [self.client]: what [responses.create] does with its arguments. *)
Definition Client : Type := Params -> result AsyncStream.

(** What the code asks of the interpreter and of its process. *)
Record Runtime : Type := mkRuntime {
  (** [os.getenv(name)] *)
  getenv : string -> option string;
  (** [float(s)] on a string *)
  float_of_str : string -> result float;
  (** a float inside an f-string *)
  str_of_float : float -> string;
  (** [warnings.warn(message, UserWarning)]: raises when the warning
      filters turn the warning into an error *)
  warnings_warn : string -> result unit;
  (** [time.time()] *)
  time_time : float;
  (** [from openai import AsyncOpenAI], [None] when the import fails, and
      the constructor applied to the key *)
  AsyncOpenAI : option (string -> Client)
}.

Declare Scope py_scope.
Delimit Scope py_scope with py.
Notation "x <- e ;; k" := (Py.bind e (fun x => k))
  (at level 61, e at next level, right associativity) : py_scope.

(** ** [OpenAIResponseBackend] (lines 177-395) *)

Module OpenAIResponseBackend.

(** The keyword arguments the constructor keeps in [self.config], by the
    keys the class reads. *)
Record Config : Type := mkConfig {
  cfg_model : option string;
  cfg_api_key : option string;
  cfg_temperature : option float;
  cfg_max_tokens : option Z
}.

Record t : Type := mk {
  config : Config;
  token_usage : TokenUsage.t;
  model : string;
  client : Client
}.

Definition set_token_usage (self : t) (u : TokenUsage.t) : t :=
  mk (config self) u (model self) (client self).

(** [x or y] on optional strings. *)
Definition str_or (x y : option string) : option string :=
  match x with
  | Some s => if (s =? "")%string then y else x
  | None => y
  end.

(** Line 196: the key from the configuration or from the environment. *)
Definition api_key_val (rt : Runtime) (kwargs : Config) : option string :=
  str_or (cfg_api_key kwargs) (getenv rt "OPENAI_API_KEY").

(** [__init__] (lines 180-202). *)
Definition init (rt : Runtime) (kwargs : Config) : result t :=
  let token_usage := TokenUsage.new (time_time rt) in
  let model := match cfg_model kwargs with Some m => m | None => "gpt-4o" end in
  match AsyncOpenAI rt with
  | None =>
      Raise (mkExc "ImportError"
               "OpenAI package not installed. Install with: pip install openai")
  | Some ctor =>
      match api_key_val rt kwargs with
      | Some key =>
          if (key =? "")%string
          then Raise (mkExc "ValueError" "OpenAI API key not found")
          else Return (mk kwargs token_usage model (ctor key))
      | None => Raise (mkExc "ValueError" "OpenAI API key not found")
      end
  end.

Definition get_provider_name (self : t) : string := "openai".

Definition get_token_usage (self : t) : TokenUsage.t := token_usage self.

Definition reset_token_usage (rt : Runtime) (self : t) : t :=
  set_token_usage self (TokenUsage.new (time_time rt)).

(** *** [calculate_cost] (lines 344-395) *)

(** The [pricing] table, per 1K tokens: [(input, output)]. *)
Definition pricing : list (string * (float * float)) :=
  [ ("gpt-4o", (0.0025, 0.01));
    ("gpt-4o-mini", (0.00015, 0.0006));
    ("gpt-4", (0.03, 0.06));
    ("gpt-3.5-turbo", (0.001, 0.002));
    ("o1", (0.015, 0.06));
    ("o1-mini", (0.003, 0.012));
    ("o3-mini", (0.003, 0.012)) ]%float.

Fixpoint pricing_get (table : list (string * (float * float)))
  (key : string) : option (float * float) :=
  match table with
  | [] => None
  | (k, rates) :: rest =>
      if (k =? key)%string then Some rates else pricing_get rest key
  end.

(** The loop of lines 369-372: the first suffix the name ends with is
    replaced wherever it occurs, and the loop stops. *)
Fixpoint strip_suffix (base_model : string) (suffixes : list string) : string :=
  match suffixes with
  | [] => base_model
  | suffix :: rest =>
      if endswith base_model suffix
      then replace base_model suffix ""
      else strip_suffix base_model rest
  end.

Definition fallback_warning (rt : Runtime) (model : string)
  (fallback_input_rate fallback_output_rate : float) : string :=
  "Using fallback pricing for unknown model '" ++ model ++ "'. "
  ++ "Rates may be outdated. Input: $"
  ++ str_of_float rt fallback_input_rate ++ "/1K tokens, "
  ++ "Output: $" ++ str_of_float rt fallback_output_rate ++ "/1K tokens. "
  ++ "Set FALLBACK_INPUT_RATE and FALLBACK_OUTPUT_RATE env vars to override.".

Definition getenv_default (rt : Runtime) (name default : string) : string :=
  match getenv rt name with
  | Some v => v
  | None => default
  end.

Definition calculate_cost (rt : Runtime) (input_tokens output_tokens : Z)
  (model : string) : result float :=
  let base_model := strip_suffix model ["-low"; "-medium"; "-high"] in
  match pricing_get pricing base_model with
  | Some (rate_input, rate_output) =>
      (i <- int_truediv input_tokens 1000 ;;
       let input_cost := (i * rate_input)%float in
       o <- int_truediv output_tokens 1000 ;;
       let output_cost := (o * rate_output)%float in
       Return (input_cost + output_cost)%float)%py
  | None =>
      (fallback_input_rate <-
         float_of_str rt (getenv_default rt "FALLBACK_INPUT_RATE" "0.0025") ;;
       fallback_output_rate <-
         float_of_str rt (getenv_default rt "FALLBACK_OUTPUT_RATE" "0.01") ;;
       _ <- warnings_warn rt
              (fallback_warning rt model fallback_input_rate
                 fallback_output_rate) ;;
       i <- int_truediv input_tokens 1000 ;;
       o <- int_truediv output_tokens 1000 ;;
       Return (i * fallback_input_rate + o * fallback_output_rate)%float)%py
  end.

(** *** Asynchronous generators

    A generator body runs on [self], yields chunks in order, may update
    [self], and either returns or raises. *)

Definition Gen (A : Type) : Type := t -> list StreamChunk.t * t * result A.

Definition gret {A} (a : A) : Gen A := fun self => ([], self, Return a).

Definition gbind {A B} (g : Gen A) (k : A -> Gen B) : Gen B :=
  fun self =>
    match g self with
    | (out, self', Return a) =>
        let '(out', self'', r) := k a self' in ((out ++ out')%list, self'', r)
    | (out, self', Raise e) => (out, self', Raise e)
    end.

(** [yield chunk]. *)
Definition yield (chunk : StreamChunk.t) : Gen unit :=
  fun self => ([chunk], self, Return tt).

(** An expression that may raise, evaluated inside the generator. *)
Definition eval {A} (r : result A) : Gen A := fun self => ([], self, r).

(** Reading an attribute of [self]. *)
Definition read {A} (f : t -> A) : Gen A := fun self => ([], self, Return (f self)).

(** [self.token_usage.add_usage(input_tokens, output_tokens, cost)]. *)
Definition token_usage_add_usage (input_tokens output_tokens : Z)
  (cost : float) : Gen unit :=
  fun self =>
    ([],
     set_token_usage self
       (TokenUsage.add_usage (token_usage self) input_tokens output_tokens cost),
     Return tt).

(** [try: body except Exception as e: handler(e)]. *)
Definition try_except (body : Gen unit) (handler : Exc -> Gen unit) : Gen unit :=
  fun self =>
    match body self with
    | (out, self', Return tt) => (out, self', Return tt)
    | (out, self', Raise e) =>
        let '(out', self'', r) := handler e self' in ((out ++ out')%list, self'', r)
    end.

Notation "x <~ g ;; k" := (gbind g (fun x => k))
  (at level 61, g at next level, right associativity) : py_scope.
Notation "g ;;; k" := (gbind g (fun _ => k))
  (at level 61, right associativity) : py_scope.

(** *** [_format_tools_for_response_api] (lines 320-338) *)

Definition is_only_type (tool : Dict) (name : string) : bool :=
  match tool with
  | [(k, VStr v)] => (k =? "type")%string && (v =? name)%string
  | _ => false
  end.

Fixpoint format_tools_for_response_api (tools : list Val) : list Val :=
  match tools with
  | [] => []
  | VDict tool :: rest =>
      (if eq_str (dict_get tool "type") "function" then VDict tool
       else if is_only_type tool "web_search_preview"
            then VDict [("type", VStr "web_search_preview")]
       else if is_only_type tool "code_interpreter"
            then VDict [("type", VStr "code_interpreter");
                        ("container", VDict [("type", VStr "auto")])]
       else VDict tool)
      :: format_tools_for_response_api rest
  | _ :: rest => format_tools_for_response_api rest
  end.

(** *** [stream_with_tools] (lines 204-318) *)

(** Lines 230-234: the last system message gives the instructions, the
    other messages are the input. *)
Fixpoint split_messages (messages : list Dict) (instructions : Val)
  (input_messages : list Dict) : result (Val * list Dict) :=
  match messages with
  | [] => Return (instructions, input_messages)
  | message :: rest =>
      if eq_str (dict_get message "role") "system"
      then match dict_get message "content" with
           | Some c => split_messages rest c input_messages
           | None => Raise (mkExc "KeyError" "'content'")
           end
      else split_messages rest instructions (input_messages ++ [message])%list
  end.

(** Lines 257-269: the reasoning effort of an o-series model, and the
    model name without its effort suffix. *)
Definition reasoning_of (model : string) : string * option string :=
  if startswith model "o"
  then
    if endswith model "-low" then (replace model "-low" "", Some "low")
    else if endswith model "-medium" then (replace model "-medium" "", Some "medium")
    else if endswith model "-high" then (replace model "-high" "", Some "high")
    else (model, Some "low")
  else (model, None).

(** Lines 221-269: the arguments of the provider call. *)
Definition prepare (self : t) (messages : list Dict)
  (tools : option (list Val)) : result Params :=
  (split <- split_messages messages (VStr "") [] ;;
   let '(instructions, input_messages) := split in
   let p_instructions :=
     if truthy instructions then Some instructions else None in
   let p_tools :=
     match tools with
     | Some ((_ :: _) as tools) =>
         match format_tools_for_response_api tools with
         | [] => None
         | formatted_tools => Some formatted_tools
         end
     | _ => None
     end in
   let temperature := cfg_temperature (config self) in
   let max_tokens := cfg_max_tokens (config self) in
   let p_temperature :=
     if startswith (model self) "o" then None else temperature in
   let '(p_model, p_reasoning) := reasoning_of (model self) in
   Return (mkParams p_model true p_instructions input_messages p_tools
             p_temperature max_tokens p_reasoning))%py.

(** The local variables of the loop (lines 275-277). *)
Record Locals : Type := mkLocals {
  text_content : string;
  input_tokens : Z;
  output_tokens : Z
}.

Definition content_chunk (delta : string) : StreamChunk.t :=
  StreamChunk.mk "content" (Some delta) None (Some "openai") None.

Definition tool_calls_chunk (delta : option string) : StreamChunk.t :=
  StreamChunk.mk "tool_calls" delta None (Some "openai") None.

Definition done_chunk : StreamChunk.t :=
  StreamChunk.mk "done" None None (Some "openai") (Some "completed").

Definition error_chunk (e : Exc) : StreamChunk.t :=
  StreamChunk.mk "error" None (Some (exc_str e)) (Some "openai") None.

(** [getattr(usage, name, 0)]. *)
Definition getattr0 (field : option Z) : Z :=
  match field with
  | Some n => n
  | None => 0
  end.

(** Lines 298-301: the token counts after a completion event. *)
Definition read_usage (chunk : Event) (locals : Locals) : Locals :=
  match ev_usage chunk with
  | Some usage =>
      mkLocals (text_content locals)
        (getattr0 (usage_input_tokens usage))
        (getattr0 (usage_output_tokens usage))
  | None => locals
  end.

(** The body of the loop (lines 280-311) on one event. *)
Definition on_chunk (rt : Runtime) (chunk : Event) (locals : Locals) : Gen Locals :=
  match ev_type chunk with
  | None => gret locals
  | Some ty =>
      if (ty =? "response.output_text.delta")%string then
        match ev_delta chunk with
        | Some delta =>
            if (delta =? "")%string then gret locals
            else
              (yield (content_chunk delta) ;;;
               gret (mkLocals (text_content locals ++ delta)
                       (input_tokens locals) (output_tokens locals)))%py
        | None => gret locals
        end
      else if (ty =? "response.function_call_output.delta")%string then
        (yield (tool_calls_chunk (ev_delta chunk)) ;;; gret locals)%py
      else if (ty =? "response.completed")%string then
        let locals := read_usage chunk locals in
        (model <~ read model ;;
         cost <~ eval (calculate_cost rt (input_tokens locals)
                         (output_tokens locals) model) ;;
         token_usage_add_usage (input_tokens locals) (output_tokens locals) cost ;;;
         yield done_chunk ;;;
         gret locals)%py
      else gret locals
  end.

(** [async for chunk in response] (line 279). *)
Fixpoint async_for (rt : Runtime) (response : AsyncStream) (locals : Locals)
  : Gen unit :=
  match response with
  | Stop => gret tt
  | Throw e => eval (Raise e)
  | Next chunk rest =>
      (locals' <~ on_chunk rt chunk locals ;; async_for rt rest locals')%py
  end.

(** Lines 220-272: the arguments are prepared and the provider is
    called. *)
Definition create_response (self : t) (messages : list Dict)
  (tools : option (list Val)) : result AsyncStream :=
  (params <- prepare self messages tools ;; client self params)%py.

(** The body of the [try] statement (lines 220-311). *)
Definition stream_body (rt : Runtime) (messages : list Dict)
  (tools : option (list Val)) : Gen unit :=
  (response <~ (fun self => eval (create_response self messages tools) self) ;;
   async_for rt response (mkLocals "" 0 0))%py.

Definition stream_with_tools (rt : Runtime) (messages : list Dict)
  (tools : option (list Val)) : Gen unit :=
  try_except (stream_body rt messages tools)
    (fun e => yield (error_chunk e)).

(** *** Reading a run *)

(** The chunks a run of a generator yields, [self] after the run, and
    what the run ends with. *)
Definition chunks {A} (run : list StreamChunk.t * t * result A) : list StreamChunk.t :=
  fst (fst run).

Definition after {A} (run : list StreamChunk.t * t * result A) : t :=
  snd (fst run).

Definition outcome {A} (run : list StreamChunk.t * t * result A) : result A :=
  snd run.

(** The type of the last chunk of a sequence. *)
Definition last_type (out : list StreamChunk.t) : option string :=
  match rev out with
  | [] => None
  | c :: _ => Some (StreamChunk.type c)
  end.

Definition count_type (ty : string) (out : list StreamChunk.t) : nat :=
  List.length (filter (StreamChunk.is_type ty) out).

(** Exactly one chunk of type [done], and it is the last chunk. *)
Definition one_done_last (out : list StreamChunk.t) : bool :=
  (count_type "done" out =? 1)%nat
  && match last_type out with
     | Some ty => (ty =? "done")%string
     | None => false
     end.

(** A chunk the loop yields for a delta event. *)
Definition is_payload (c : StreamChunk.t) : bool :=
  StreamChunk.is_type "content" c || StreamChunk.is_type "tool_calls" c.

(** How the iteration over a response ends when every event is
    consumed. *)
Fixpoint ending (response : AsyncStream) : result unit :=
  match response with
  | Stop => Return tt
  | Throw e => Raise e
  | Next _ rest => ending rest
  end.

(** A response that delivers [events] and goes on as [rest]. *)
Definition feed (events : list Event) (rest : AsyncStream) : AsyncStream :=
  fold_right Next rest events.

(** The events a response delivers before it ends or raises. *)
Fixpoint delivered (response : AsyncStream) : list Event :=
  match response with
  | Next chunk rest => chunk :: delivered rest
  | _ => []
  end.

Definition is_completed (chunk : Event) : bool :=
  match ev_type chunk with
  | Some ty => (ty =? "response.completed")%string
  | None => false
  end.

(** The token counts of a completion event as its usage metadata gives
    them, each 0 when absent. *)
Definition usage_of (chunk : Event) : Z * Z :=
  match ev_usage chunk with
  | Some usage =>
      (getattr0 (usage_input_tokens usage), getattr0 (usage_output_tokens usage))
  | None => (0, 0)
  end.

(** The accumulator as the specification words it: every completion
    event the response delivers adds the counts of its own usage
    metadata, each 0 when absent, and the cost of these counts. *)
Fixpoint spec_usage (rt : Runtime) (events : list Event) (model : string)
  (usage : TokenUsage.t) : TokenUsage.t :=
  match events with
  | [] => usage
  | chunk :: rest =>
      if is_completed chunk
      then
        let '(i, o) := usage_of chunk in
        match calculate_cost rt i o model with
        | Return cost => spec_usage rt rest model (TokenUsage.add_usage usage i o cost)
        | Raise _ => usage
        end
      else spec_usage rt rest model usage
  end.

(** *** Reading the arguments and the events *)

(** A message with the role "system" (line 231). *)
Definition is_system (message : Dict) : bool :=
  eq_str (dict_get message "role") "system".

(** The content of the last system message that has one. *)
Definition last_system_content (messages : list Dict) : option Val :=
  match rev (filter is_system messages) with
  | [] => None
  | message :: _ => dict_get message "content"
  end.

(** A system message without the key "content". *)
Definition lacks_content (message : Dict) : bool :=
  is_system message
  && match dict_get message "content" with
     | None => true
     | Some _ => false
     end.

(** The rates of a model whose name, without an effort suffix, is in the
    pricing table. *)
Definition priced (model : string) : option (float * float) :=
  pricing_get pricing (strip_suffix model ["-low"; "-medium"; "-high"]).

(** The value of the "type" key of a tool. *)
Definition tool_type (tool : Val) : option Val :=
  match tool with
  | VDict kv => dict_get kv "type"
  | _ => None
  end.

(** An event whose type is none of the three the loop knows. *)
Definition is_ignored (chunk : Event) : bool :=
  match ev_type chunk with
  | None => true
  | Some ty =>
      negb ((ty =? "response.output_text.delta")%string
            || (ty =? "response.function_call_output.delta")%string
            || (ty =? "response.completed")%string)
  end.

(** The chunk the loop yields for an event that is no completion event
    (lines 281-296): a [content] chunk for a text delta that is not
    empty, a [tool_calls] chunk for a function-call delta, none
    otherwise. *)
Definition payload_chunk (chunk : Event) : list StreamChunk.t :=
  match ev_type chunk with
  | Some ty =>
      if (ty =? "response.output_text.delta")%string then
        match ev_delta chunk with
        | Some delta => if (delta =? "")%string then [] else [content_chunk delta]
        | None => []
        end
      else if (ty =? "response.function_call_output.delta")%string
      then [tool_calls_chunk (ev_delta chunk)]
      else []
  | None => []
  end.

Definition payload_chunks (events : list Event) : list StreamChunk.t :=
  flat_map payload_chunk events.

(** The text a delta event carries, empty for every other event. *)
Definition text_delta_of (chunk : Event) : string :=
  match ev_type chunk, ev_delta chunk with
  | Some ty, Some delta =>
      if (ty =? "response.output_text.delta")%string then delta else ""
  | _, _ => ""
  end.

(** The text of the events a response delivers. *)
Fixpoint text_of (events : list Event) : string :=
  match events with
  | [] => ""
  | chunk :: rest => text_delta_of chunk ++ text_of rest
  end.

(** The text of the [content] chunks of a sequence. *)
Fixpoint content_of (out : list StreamChunk.t) : string :=
  match out with
  | [] => ""
  | c :: rest =>
      (if StreamChunk.is_type "content" c
       then match StreamChunk.content c with Some text => text | None => "" end
       else "")
      ++ content_of rest
  end.

(** A completion event whose usage metadata, where present, has no
    negative count. *)
Definition nonneg_usage (chunk : Event) : bool :=
  match ev_usage chunk with
  | Some usage =>
      (0 <=? getattr0 (usage_input_tokens usage))
      && (0 <=? getattr0 (usage_output_tokens usage))
  | None => true
  end.

(** A chunk as [stream_with_tools] builds them: one of the four types,
    with "openai" as source, text in a [content] chunk, the status
    "completed" on [done] and a message on [error]. *)
Definition well_formed (c : StreamChunk.t) : bool :=
  match StreamChunk.source c with
  | Some source =>
      (source =? "openai")%string
      && if StreamChunk.is_type "content" c then
           match StreamChunk.content c with
           | Some text => negb (text =? "")%string
           | None => false
           end
         else if StreamChunk.is_type "tool_calls" c then true
         else if StreamChunk.is_type "done" c then
           match StreamChunk.status c with
           | Some status => (status =? "completed")%string
           | None => false
           end
         else if StreamChunk.is_type "error" c then
           match StreamChunk.error c with
           | Some _ => true
           | None => false
           end
         else false
  | None => false
  end.

(** *** Sample runs *)

Definition value_error (s : string) : Exc :=
  mkExc "ValueError" ("could not convert string to float: '" ++ s ++ "'").

(** An interpreter with no environment variable set, the default warning
    filters and the [openai] package installed; its provider answers
    every call with [response]. *)
Definition sample_runtime (response : result AsyncStream) : Runtime :=
  mkRuntime
    (fun _ => None)
    (fun s =>
       if (s =? "0.0025")%string then Return 0.0025%float
       else if (s =? "0.01")%string then Return 0.01%float
       else Raise (value_error s))
    (fun _ => "")
    (fun _ => Return tt)
    0%float
    (Some (fun _ _ => response)).

(** [OpenAIResponseBackend(model="gpt-4o", api_key="sk-test")] on that
    interpreter. *)
Definition sample_backend (response : result AsyncStream) : t :=
  mk (mkConfig (Some "gpt-4o") (Some "sk-test") None None)
     (TokenUsage.new 0%float) "gpt-4o" (fun _ => response).

Definition completed_event (usage : option Usage) : Event :=
  mkEvent (Some "response.completed") None usage.

Definition text_delta (delta : string) : Event :=
  mkEvent (Some "response.output_text.delta") (Some delta) None.

Definition connection_error : Exc :=
  mkExc "APIConnectionError" "Connection error.".

Definition usage_10_20 : option Usage := Some (mkUsage (Some 10) (Some 20)).

(** A delta, then the completion event. *)
Definition sample_completed : result AsyncStream :=
  Return (feed [text_delta "Hi"] (Next (completed_event usage_10_20) Stop)).

(** A delta, then a failure of the connection. *)
Definition sample_broken : result AsyncStream :=
  Return (Next (text_delta "Hi") (Throw connection_error)).

(** The provider rejects the call. *)
Definition sample_rejected : result AsyncStream := Raise connection_error.

(** The same interpreter with [FALLBACK_INPUT_RATE] set to a text that
    is no number. *)
Definition misconfigured_runtime (response : result AsyncStream) : Runtime :=
  mkRuntime
    (fun name => if (name =? "FALLBACK_INPUT_RATE")%string then Some "abc" else None)
    (float_of_str (sample_runtime response))
    (str_of_float (sample_runtime response))
    (warnings_warn (sample_runtime response))
    (time_time (sample_runtime response))
    (AsyncOpenAI (sample_runtime response)).

(** A backend for a model that is not in the pricing table. *)
Definition unpriced_backend (response : result AsyncStream) : t :=
  mk (mkConfig (Some "gpt-5") (Some "sk-test") None None)
     (TokenUsage.new 0%float) "gpt-5" (fun _ => response).

(** A system message, then a user message. *)
Definition sample_messages : list Dict :=
  [ [("role", VStr "system"); ("content", VStr "Be brief.")];
    [("role", VStr "user"); ("content", VStr "Hi")] ].

(** A function tool, and a value that is no dict. *)
Definition sample_tools : list Val :=
  [ VDict [("type", VStr "function");
           ("function", VDict [("name", VStr "lookup")])];
    VStr "search" ].

(** [OpenAIResponseBackend(model="o3-mini-high", api_key="sk-test",
    temperature=0.7)]. *)
Definition reasoning_backend (response : result AsyncStream) : t :=
  mk (mkConfig (Some "o3-mini-high") (Some "sk-test") (Some 0.7%float) None)
     (TokenUsage.new 0%float) "o3-mini-high" (fun _ => response).

(** An event of a type the loop does not know. *)
Definition created_event : Event := mkEvent (Some "response.created") None None.

(** Two completion events, the second without usage metadata. *)
Definition sample_twice : result AsyncStream :=
  Return (Next (completed_event usage_10_20) (Next (completed_event None) Stop)).

End OpenAIResponseBackend.

(** ** [ChatCompletionsBackend] (lines 130-174) *)

Module ChatCompletionsBackend.

Definition estimate_tokens (text : string) : Z :=
  Z.of_nat (String.length text) / 4.

(** [format_tools_for_api] (lines 142-160): both branches append the
    tool. *)
Fixpoint format_tools_for_api (tools : list Val) : list Val :=
  match tools with
  | [] => []
  | tool :: rest =>
      (if is_dict tool then tool else tool) :: format_tools_for_api rest
  end.

End ChatCompletionsBackend.

(** ** [create_backend] (lines 399-414) *)

Definition create_backend (rt : Runtime) (provider model : string)
  (kwargs : OpenAIResponseBackend.Config)
  : result OpenAIResponseBackend.t :=
  if (lower provider =? "openai")%string
  then
    OpenAIResponseBackend.init rt
      (OpenAIResponseBackend.mkConfig (Some model)
         (OpenAIResponseBackend.cfg_api_key kwargs)
         (OpenAIResponseBackend.cfg_temperature kwargs)
         (OpenAIResponseBackend.cfg_max_tokens kwargs))
  else Raise (mkExc "ValueError" ("Unsupported provider: " ++ provider)).

(** ** [get_provider_from_model] (lines 418-440) *)

(** [any(prefix in model_lower for prefix in prefixes)]. *)
Definition any_in (prefixes : list string) (model_lower : string) : bool :=
  existsb (fun prefix => str_in prefix model_lower) prefixes.

Definition get_provider_from_model (model : string) : string :=
  let model_lower := lower model in
  if any_in ["claude"] model_lower then "anthropic"
  else if any_in ["gemini"] model_lower then "google"
  else if any_in ["gpt"; "o1"; "o3"] model_lower then "openai"
  else if any_in ["grok"] model_lower then "xai"
  else "openai".

(** ** The loops of [tests/test_timeout.py]

    The two tests read the chunks of [orchestrator.chat_simple] one by
    one (lines 59-82 and 135-152); what they print is left out. *)

Module TestTimeout.

Record Loop : Type := mkLoop {
  response_content : string;
  timeout_detected : bool
}.

(** The double quote, U+0022. *)
Definition dquote : string := String (ascii_of_nat 34) "".

Definition type_error : Exc :=
  mkExc "TypeError"
    ("can only concatenate str (not " ++ dquote ++ "NoneType" ++ dquote
     ++ ") to str").

Definition attribute_error : Exc :=
  mkExc "AttributeError" "'NoneType' object has no attribute 'lower'".

(** The loop of [test_agent_timeout] (lines 62-82). *)
Fixpoint agent_loop (stream : list StreamChunk.t) (st : Loop) : result Loop :=
  match stream with
  | [] => Return st
  | chunk :: rest =>
      if StreamChunk.is_type "content" chunk then
        match StreamChunk.content chunk with
        | Some content =>
            agent_loop rest
              (mkLoop (response_content st ++ content)
                 (if str_in "time limit exceeded" content then true
                  else timeout_detected st))
        | None => Raise type_error
        end
      else if StreamChunk.is_type "error" chunk then
        match StreamChunk.error chunk with
        | Some error =>
            agent_loop rest
              (mkLoop (response_content st)
                 (if str_in "time limit exceeded" (lower error) then true
                  else timeout_detected st))
        | None => Raise attribute_error
        end
      else if StreamChunk.is_type "done" chunk then Return st
      else agent_loop rest st
  end.

(** Lines 59-60 and 62-82: the loop from its initial variables. *)
Definition test_agent_timeout (stream : list StreamChunk.t) : result Loop :=
  agent_loop stream (mkLoop "" false).

(** The loop of [test_orchestrator_timeout] (lines 138-152). *)
Fixpoint orchestrator_loop (stream : list StreamChunk.t) (st : Loop)
  : result Loop :=
  match stream with
  | [] => Return st
  | chunk :: rest =>
      if StreamChunk.is_type "content" chunk then
        match StreamChunk.content chunk with
        | Some content =>
            orchestrator_loop rest
              (mkLoop (response_content st ++ content)
                 (if str_in "time limit exceeded" (lower content)
                     || str_in "timeout" (lower content)
                  then true else timeout_detected st))
        | None => Raise type_error
        end
      else if StreamChunk.is_type "error" chunk then
        match StreamChunk.error chunk with
        | Some error =>
            orchestrator_loop rest
              (mkLoop (response_content st)
                 (if str_in "time limit exceeded" (lower error)
                     || str_in "timeout" (lower error)
                  then true else timeout_detected st))
        | None => Raise attribute_error
        end
      else if StreamChunk.is_type "done" chunk then Return st
      else orchestrator_loop rest st
  end.

(** Lines 135-136 and 138-152: the loop from its initial variables. *)
Definition test_orchestrator_timeout (stream : list StreamChunk.t) : result Loop :=
  orchestrator_loop stream (mkLoop "" false).

(** A chunk in which [test_agent_timeout] sees a timeout. *)
Definition signals_timeout (chunk : StreamChunk.t) : bool :=
  if StreamChunk.is_type "content" chunk then
    match StreamChunk.content chunk with
    | Some content => str_in "time limit exceeded" content
    | None => false
    end
  else if StreamChunk.is_type "error" chunk then
    match StreamChunk.error chunk with
    | Some error => str_in "time limit exceeded" (lower error)
    | None => false
    end
  else false.

(** The chunks before the first [done] chunk. *)
Fixpoint until_done (stream : list StreamChunk.t) : list StreamChunk.t :=
  match stream with
  | [] => []
  | chunk :: rest =>
      if StreamChunk.is_type "done" chunk then [] else chunk :: until_done rest
  end.

(** A chunk the loop can read: a [content] chunk has text and an
    [error] chunk has a message. *)
Definition readable (chunk : StreamChunk.t) : bool :=
  if StreamChunk.is_type "content" chunk then
    match StreamChunk.content chunk with Some _ => true | None => false end
  else if StreamChunk.is_type "error" chunk then
    match StreamChunk.error chunk with Some _ => true | None => false end
  else true.

End TestTimeout.

(** ** The orchestration core (specification sections 3 to 5)

    [massgen.agent_config], [massgen.chat_agent] and
    [massgen.orchestrator] are imported by [tests/test_timeout.py] and are
    not part of the sources; this module follows the specification. *)

Module Orchestration.

(** Modelled from the spec: [TimeoutConfig] (section 3), with the option
    names the test passes by keyword (lines 26-32 of the test). *)
Record TimeoutConfig : Type := mkTimeoutConfig {
  agent_timeout_seconds : Z;
  agent_max_tokens : Z;
  orchestrator_timeout_seconds : Z;
  orchestrator_max_tokens : Z;
  enable_timeout_fallback : bool
}.

Inductive Kind : Type := KTime | KTokens.

Inductive Verdict : Type :=
| Within
| Exceeded (kind : Kind).

(** Modelled from the spec: the time limit of section 4.1: the elapsed
    wall-clock time since the scope started exceeds the timeout. *)
Definition over_time (elapsed_seconds : Q) (timeout_seconds : Z) : bool :=
  negb (Qle_bool elapsed_seconds (inject_Z timeout_seconds)).

(** Modelled from the spec: the Budget Tracker's [check] (section 4.1).
    The time limit is exceeded when the elapsed time is above the
    timeout, the token limit when the cumulative tokens are above the
    maximum; the time limit is looked at first. *)
Definition check (elapsed_seconds : Q) (tokens_consumed : Z)
  (timeout_seconds max_tokens : Z) : Verdict :=
  if over_time elapsed_seconds timeout_seconds then Exceeded KTime
  else if max_tokens <? tokens_consumed then Exceeded KTokens
  else Within.

Definition kind_name (kind : Kind) : string :=
  match kind with
  | KTime => "time"
  | KTokens => "tokens"
  end.

(** Modelled from the spec: the message of the chunk synthesized on a
    budget exceed, which section 4.1 requires to contain
    "time limit exceeded"; it names the scope and the kind of the error
    taxonomy of section 7. *)
Definition exceeded_message (scope : string) (kind : Kind) : string :=
  scope ++ ": time limit exceeded (" ++ kind_name kind ++ ")".

(** Modelled from the spec: the stream of a Backend Capability (section
    6) in time.  Every event carries the seconds elapsed since the scope
    started when it happens: the backend yields a chunk, which adds
    [tokens] to the scope, and goes on; its stream ends; or it raises.
    [Stalls] is a backend from which nothing more ever comes. *)
Inductive Backend : Type :=
| Yields (seconds : Q) (chunk : StreamChunk.t) (tokens : Z) (rest : Backend)
| Ends (seconds : Q)
| Fails (seconds : Q) (e : Exc)
| Stalls.

(** Modelled from the spec: a chunk of an agent's sequence on its way to
    the orchestrator, with the time it is produced; [Raise] is a hard
    failure that propagates (section 4.1, fallback off). *)
Record Item : Type := mkItem {
  item_seconds : Q;
  item_agent : string;
  item_payload : result StreamChunk.t;
  item_tokens : Z
}.

Definition agent_error (agent message : string) : StreamChunk.t :=
  StreamChunk.mk "error" None (Some message) (Some agent) None.

Definition agent_done (agent status : string) : StreamChunk.t :=
  StreamChunk.mk "done" None None (Some agent) (Some status).

(** Modelled from the spec: an agent cut off at [seconds] on a budget
    exceed (sections 4.1 and 4.2): with the fallback an [error] chunk
    noting the exceed, then a [done] chunk with a degraded status;
    without it a hard failure.  [tokens] are the tokens received with the
    cut and not yet passed on. *)
Definition cut_off (cfg : TimeoutConfig) (agent : string) (seconds : Q)
  (kind : Kind) (tokens : Z) : list Item :=
  if enable_timeout_fallback cfg
  then [mkItem seconds agent
          (Return (agent_error agent (exceeded_message "agent" kind))) tokens;
        mkItem seconds agent (Return (agent_done agent "timed_out")) 0]
  else [mkItem seconds agent
          (Raise (mkExc "BudgetExceeded" (exceeded_message "agent" kind)))
          tokens].

(** Modelled from the spec: the Single Agent's [respond] (section 4.2).

    The clock of the scope runs while the agent waits for the backend:
    when the next event of the backend comes after the time limit, or
    never comes, the agent does not wait for it; it cuts the stream off
    as the limit passes, and that event is never received.

    An event within the time limit is received.  A chunk is forwarded,
    its tokens are counted, and the budget is checked after it: within
    budget the sequence goes on, and ends after a [done] chunk; on an
    exceed the stream is cut off there.  The agent's sequence has one
    [done] chunk: when the check after the backend's [done] chunk finds
    the budget exceeded, the degraded [done] takes its place.  A failure
    the backend raises gives one [error] chunk, which ends the sequence;
    so does the end of the backend's stream, with no chunk. *)
Fixpoint respond (cfg : TimeoutConfig) (agent : string) (backend : Backend)
  (consumed : Z) : list Item :=
  let timeout := agent_timeout_seconds cfg in
  let expired := cut_off cfg agent (inject_Z timeout) KTime 0 in
  match backend with
  | Stalls => expired
  | Ends seconds => if over_time seconds timeout then expired else []
  | Fails seconds e =>
      if over_time seconds timeout then expired
      else [mkItem seconds agent (Return (agent_error agent (exc_str e))) 0]
  | Yields seconds chunk tokens rest =>
      if over_time seconds timeout then expired
      else
        let consumed := consumed + tokens in
        let verdict := check seconds consumed timeout (agent_max_tokens cfg) in
        if StreamChunk.is_type "done" chunk
        then
          match verdict with
          | Within => [mkItem seconds agent (Return chunk) tokens]
          | Exceeded kind => cut_off cfg agent seconds kind tokens
          end
        else
          mkItem seconds agent (Return chunk) tokens
          :: match verdict with
             | Within => respond cfg agent rest consumed
             | Exceeded kind => cut_off cfg agent seconds kind 0
             end
  end.

(** Modelled from the spec: first ready, first forwarded (section 4.3,
    step 3): two sequences merged by the time their chunks are produced,
    each keeping its own order, the first sequence winning a tie. *)
Fixpoint merge (l1 : list Item) : list Item -> list Item :=
  fix merge_with (l2 : list Item) : list Item :=
    match l1, l2 with
    | [], _ => l2
    | _, [] => l1
    | a1 :: l1', a2 :: l2' =>
        if Qle_bool (item_seconds a1) (item_seconds a2)
        then a1 :: merge l1' l2
        else a2 :: merge_with l2'
    end.

Definition merge_all (sequences : list (list Item)) : list Item :=
  fold_right merge [] sequences.

(** How the agents seen so far ended. *)
Record Seen : Type := mkSeen {
  some_completed : bool;
  some_timed_out : bool
}.

Definition see (seen : Seen) (chunk : StreamChunk.t) : Seen :=
  if StreamChunk.is_type "done" chunk
  then
    match StreamChunk.status chunk with
    | Some "completed" => mkSeen true (some_timed_out seen)
    | _ => mkSeen (some_completed seen) true
    end
  else seen.

(** Modelled from the spec: the status of the terminal chunk when every
    agent has ended: a degraded answer only if no agent completed
    (section 4.3, failure semantics). *)
Definition final_status (seen : Seen) : string :=
  if some_completed seen then "completed"
  else if some_timed_out seen then "timed_out"
  else "failed".

(** A relayed chunk, tagged with its originating agent. *)
Definition tag (agent : string) (chunk : StreamChunk.t) : StreamChunk.t :=
  StreamChunk.mk (StreamChunk.type chunk) (StreamChunk.content chunk)
    (StreamChunk.error chunk) (Some agent) (StreamChunk.status chunk).

Definition orchestrator_done (status : string) : StreamChunk.t :=
  StreamChunk.mk "done" None None (Some "orchestrator") (Some status).

Definition orchestrator_error (message : string) : StreamChunk.t :=
  StreamChunk.mk "error" None (Some message) (Some "orchestrator") None.

(** Modelled from the spec: the run stopped on a global budget exceed
    (section 4.3, step 5), after [relayed]: the remaining agent streams
    are cancelled; with the fallback an [error] chunk at orchestrator
    scope and the terminal [done], without it a hard failure. *)
Definition stop (cfg : TimeoutConfig) (relayed : list StreamChunk.t)
  (kind : Kind) : result (list StreamChunk.t) :=
  if enable_timeout_fallback cfg
  then Return (relayed ++
               [orchestrator_error (exceeded_message "orchestrator" kind);
                orchestrator_done "timed_out"])%list
  else Raise (mkExc "BudgetExceeded" (exceeded_message "orchestrator" kind)).

(** Modelled from the spec: steps 3 to 7 of the Orchestrator (section
    4.3) over the merged chunks.  The global timer runs while the
    orchestrator waits: a chunk produced after the global time limit is
    never relayed, the run is stopped as the limit passes.  A chunk
    within the limit is relayed to the caller with its agent as source,
    an agent's own [done] apart, which only marks that agent as ended;
    the global accumulator takes the chunk's tokens and the global budget
    is checked again.  A hard failure of an agent propagates.  When every
    agent has ended the terminal [done] is emitted. *)
Fixpoint relay (cfg : TimeoutConfig) (merged : list Item) (global_tokens : Z)
  (seen : Seen) : result (list StreamChunk.t) :=
  match merged with
  | [] => Return [orchestrator_done (final_status seen)]
  | item :: rest =>
      if over_time (item_seconds item) (orchestrator_timeout_seconds cfg)
      then stop cfg [] KTime
      else
        match item_payload item with
        | Raise e => Raise e
        | Return chunk =>
            let relayed :=
              if StreamChunk.is_type "done" chunk then []
              else [tag (item_agent item) chunk] in
            let global_tokens := global_tokens + item_tokens item in
            match check (item_seconds item) global_tokens
                    (orchestrator_timeout_seconds cfg)
                    (orchestrator_max_tokens cfg) with
            | Exceeded kind => stop cfg relayed kind
            | Within =>
                (more <- relay cfg rest global_tokens (see seen chunk) ;;
                 Return (relayed ++ more)%list)%py
            end
        end
  end.

(** Modelled from the spec: one run (section 4.3, steps 1 to 7): every
    agent responds from elapsed time zero with no token consumed, and the
    merged chunks are relayed under the global budget. *)
Definition chat (cfg : TimeoutConfig) (agents : list (string * Backend))
  : result (list StreamChunk.t) :=
  relay cfg
    (merge_all (map (fun '(agent, backend) => respond cfg agent backend 0) agents))
    0 (mkSeen false false).

(** The configuration and the agent of [test_agent_timeout] (lines 26-32
    and 46 of the test). *)
Definition test_timeout_config : TimeoutConfig :=
  mkTimeoutConfig 10 1000 600 1000 true.

Definition test_agents (backend : Backend) : list (string * Backend) :=
  [("test_agent", backend)].

(** Modelled from the spec: a backend that never completes within
    [seconds] (section 8): its streaming call is still running when that
    time has passed.  Until then it has yielded no [done] chunk, its
    stream has not ended and it has not raised; what it does later, if
    anything, is free: it may stall for ever, go on yielding, end or
    raise.  A call that has ended within the time, in whichever way, is
    not one of these: the backend that raises at once is the third
    scenario of section 8, which expects the failure and no timeout. *)
Fixpoint never_completes_within (seconds : Z) (backend : Backend) : bool :=
  match backend with
  | Stalls => true
  | Ends at_ => over_time at_ seconds
  | Fails at_ _ => over_time at_ seconds
  | Yields at_ chunk _ rest =>
      over_time at_ seconds
      || negb (StreamChunk.is_type "done" chunk)
         && never_completes_within seconds rest
  end.

Definition text_chunk (text : string) : StreamChunk.t :=
  StreamChunk.mk "content" (Some text) None (Some "backend") None.

(** A backend that is still streaming text after eleven seconds. *)
Definition slow_backend : Backend :=
  Yields (2 # 1) (text_chunk "Once") 5
    (Yields (11 # 1) (text_chunk "upon") 5 (Ends (12 # 1))).

(** A backend that yields once, after two seconds, and then stalls. *)
Definition stalled_backend : Backend :=
  Yields (2 # 1) (text_chunk "Once") 5 Stalls.

(** A backend that yields once and raises after eleven seconds. *)
Definition late_failure : Backend :=
  Yields (2 # 1) (text_chunk "Once") 5
    (Fails (11 # 1) (mkExc "APIConnectionError" "Connection error.")).

(** A backend that raises at once. *)
Definition failing_backend : Backend :=
  Fails (0 # 1) (mkExc "APIConnectionError" "Connection error.").

(** [sub in s]. *)
Definition contains (s sub : string) : Prop :=
  exists before after, s = before ++ sub ++ after.

(** What the scenario expects of the merged stream: it ends with an
    [error] chunk whose message contains "time limit exceeded", followed
    by a [done] chunk with the degraded status "timed_out". *)
Definition timed_out_end (out : list StreamChunk.t) : Prop :=
  exists before e d message,
    out = (before ++ [e; d])%list
    /\ StreamChunk.type e = "error"
    /\ StreamChunk.error e = Some message
    /\ contains message "time limit exceeded"
    /\ StreamChunk.type d = "done"
    /\ StreamChunk.status d = Some "timed_out".

End Orchestration.

(** * Properties *)

(** ** Binary64 addition

    [estimated_cost] is a float: that adding a non-negative cost does not
    lower it is a fact about rounding to nearest, proved here on the
    specification of the format. *)

Section Rounding.

Variables prec emax : Z.
Hypothesis prec_pos : 0 < prec.

Local Abbreviation fexp := (SpecFloat.fexp prec emax).
Local Abbreviation emin := (SpecFloat.emin prec emax).

Lemma digits2_pos_log2 (p : positive) :
  Zpos (digits2_pos p) = Z.log2 (Zpos p) + 1.
Proof.
  assert (S : forall q, digits2_pos q = Pos.size q).
  { induction q; simpl; congruence. }
  destruct p; simpl; rewrite ?S; lia.
Qed.

Lemma fexp_mono (a b : Z) : a <= b -> fexp a <= fexp b.
Proof. unfold SpecFloat.fexp. lia. Qed.

Lemma fexp_ge_emin (a : Z) : emin <= fexp a.
Proof. unfold SpecFloat.fexp. lia. Qed.

Lemma shr_1_m (r : shr_record) :
  0 <= shr_m r -> shr_m (shr_1 r) = shr_m r / 2.
Proof.
  destruct r as [m r s]. cbn [shr_m shr_1]. intros H.
  destruct m as [|[p|p|]|p]; cbn [shr_m]; try lia; try reflexivity.
  - apply Z.div_unique with 1; lia.
  - apply Z.div_unique with 0; lia.
Qed.

Lemma pow2_xO (p : positive) : 2 ^ Zpos p~0 = 2 ^ Zpos p * 2 ^ Zpos p.
Proof. rewrite Pos2Z.inj_xO, <- Z.pow_add_r by lia. f_equal. lia. Qed.

Lemma pow2_xI (p : positive) : 2 ^ Zpos p~1 = 2 * (2 ^ Zpos p * 2 ^ Zpos p).
Proof.
  rewrite Pos2Z.inj_xI, <- Z.pow_add_r, <- Z.pow_succ_r by lia. f_equal. lia.
Qed.

Lemma pow2_pos (n : Z) : 0 <= n -> 0 < 2 ^ n.
Proof. intros H. apply Z.pow_pos_nonneg; lia. Qed.

Lemma iter_shr_1_m (p : positive) (r : shr_record) :
  0 <= shr_m r ->
  shr_m (iter_pos shr_1 p r) = shr_m r / 2 ^ Zpos p.
Proof.
  revert r. induction p as [p IH|p IH|]; intros r H; simpl iter_pos.
  - assert (H1 : 0 <= shr_m (shr_1 r)).
    { rewrite shr_1_m by exact H. apply Z.div_pos; lia. }
    assert (H2 : 0 <= shr_m (iter_pos shr_1 p (shr_1 r))).
    { rewrite IH by exact H1. apply Z.div_pos; [lia|]. apply pow2_pos; lia. }
    rewrite IH by exact H2. rewrite IH by exact H1. rewrite shr_1_m by exact H.
    pose proof (pow2_pos (Zpos p) ltac:(lia)) as P.
    rewrite pow2_xI, !Z.div_div by lia. reflexivity.
  - assert (H2 : 0 <= shr_m (iter_pos shr_1 p r)).
    { rewrite IH by exact H. apply Z.div_pos; [lia|]. apply pow2_pos; lia. }
    rewrite IH by exact H2. rewrite IH by exact H.
    pose proof (pow2_pos (Zpos p) ltac:(lia)) as P.
    rewrite pow2_xO, !Z.div_div by lia. reflexivity.
  - rewrite shr_1_m by exact H. reflexivity.
Qed.

(** [shr] divides the mantissa by a power of two and moves the exponent. *)
Lemma shr_spec (m : Z) (l : location) (e n : Z) :
  0 <= m ->
  shr_m (fst (shr (shr_record_of_loc m l) e n)) = m / 2 ^ Z.max n 0
  /\ snd (shr (shr_record_of_loc m l) e n) = e + Z.max n 0.
Proof.
  intros H.
  assert (M : shr_m (shr_record_of_loc m l) = m).
  { destruct l as [|[]]; reflexivity. }
  destruct n as [|p|p]; cbn [shr fst snd].
  - rewrite M. change (Z.max 0 0) with 0. rewrite Z.div_1_r. lia.
  - rewrite iter_shr_1_m by (rewrite M; exact H). rewrite M.
    replace (Z.max (Zpos p) 0) with (Zpos p) by lia. split; reflexivity.
  - rewrite M. replace (Z.max (Zneg p) 0) with 0 by lia.
    rewrite Z.div_1_r. lia.
Qed.

Lemma round_nearest_even_ge (r : shr_record) :
  shr_m r <= round_nearest_even (shr_m r) (loc_of_shr_record r).
Proof.
  destruct r as [m [] []]; cbn [shr_m loc_of_shr_record round_nearest_even];
    try destruct (Z.even m); lia.
Qed.

Lemma div_pow2_ge (m q n : Z) :
  0 <= n -> q * 2 ^ n <= m -> q <= m / 2 ^ n.
Proof.
  intros Hn H. apply Z.div_le_lower_bound; [apply pow2_pos; exact Hn|lia].
Qed.

Lemma pow2_log2_le (m n : Z) : 0 < m -> 0 <= n <= Z.log2 m -> 2 ^ n <= m.
Proof.
  intros Hm Hn. apply Z.le_trans with (2 ^ Z.log2 m).
  - apply Z.pow_le_mono_r; lia.
  - apply Z.log2_spec. exact Hm.
Qed.

Lemma canonical_fexp (mx : positive) (ex : Z) :
  bounded prec emax mx ex = true ->
  fexp (Z.log2 (Zpos mx) + 1 + ex) = ex /\ ex <= emax - prec.
Proof.
  unfold bounded, canonical_mantissa. intros H.
  apply andb_true_iff in H. destruct H as [C B].
  apply Z.eqb_eq in C. apply Z.leb_le in B.
  rewrite digits2_pos_log2 in C. split; assumption.
Qed.

(** Rounding a value that is not below a representable positive number
    gives a number that is not below it either. *)
Lemma binary_round_aux_ge (s : positive) (e : Z) (mx : positive) (ex : Z) :
  bounded prec emax mx ex = true ->
  e <= ex ->
  Zpos mx * 2 ^ (ex - e) <= Zpos s ->
  SFleb (S754_finite false mx ex)
    (binary_round_aux prec emax false (Zpos s) e loc_Exact) = true.
Proof.
  intros B He Hs.
  destruct (canonical_fexp mx ex B) as [C Bx].
  pose proof (pow2_pos (ex - e) ltac:(lia)) as P.
  assert (A : Z.log2 (Zpos mx) + (ex - e) <= Z.log2 (Zpos s)).
  { rewrite Z.add_comm, <- Z.log2_mul_pow2 by lia. apply Z.log2_le_mono. exact Hs. }
  set (e0 := fexp (Z.log2 (Zpos s) + 1 + e)).
  assert (E0 : ex <= e0).
  { rewrite <- C. apply fexp_mono. lia. }
  assert (S1 : 2 ^ (e0 - e) <= Zpos s).
  { unfold e0, SpecFloat.fexp in *.
    destruct (Z.max_spec (Z.log2 (Zpos s) + 1 + e - prec) emin) as [[_ M]|[_ M]];
      rewrite M in *.
    - assert (ex = emin) by (pose proof (fexp_ge_emin (Z.log2 (Zpos mx) + 1 + ex));
        unfold SpecFloat.fexp in *; lia).
      subst ex. apply Z.le_trans with (2 := Hs). nia.
    - apply pow2_log2_le; lia. }
  unfold binary_round_aux, shr_fexp.
  cbn [Zdigits2]. rewrite digits2_pos_log2. fold e0.
  destruct (shr_spec (Zpos s) loc_Exact e (e0 - e) ltac:(lia)) as [M1 X1].
  destruct (shr (shr_record_of_loc (Zpos s) loc_Exact) e (e0 - e)) as [mrs1 e1].
  cbn [fst snd] in M1, X1.
  replace (Z.max (e0 - e) 0) with (e0 - e) in * by lia.
  assert (X1' : e1 = e0) by lia. clear X1. subst e1.
  pose proof (round_nearest_even_ge mrs1) as R.
  set (m2 := round_nearest_even (shr_m mrs1) (loc_of_shr_record mrs1)) in *.
  assert (G1 : 1 <= shr_m mrs1).
  { rewrite M1. apply div_pow2_ge; lia. }
  assert (G1x : e0 = ex -> Zpos mx <= shr_m mrs1).
  { intros ->. rewrite M1. apply div_pow2_ge; lia. }
  assert (G2 : 1 <= m2) by lia.
  destruct m2 as [|p2|p2] eqn:Em2; try lia.
  cbn [Zdigits2]. rewrite digits2_pos_log2.
  set (n2 := fexp (Z.log2 (Zpos p2) + 1 + e0) - e0).
  destruct (shr_spec (Zpos p2) loc_Exact e0 n2 ltac:(lia)) as [M2 X2].
  destruct (shr (shr_record_of_loc (Zpos p2) loc_Exact) e0 n2) as [mrs2 e2].
  cbn [fst snd] in M2, X2.
  assert (Emin : emin <= e0) by apply fexp_ge_emin.
  assert (G3 : 1 <= shr_m mrs2 /\ (e2 = ex -> Zpos mx <= shr_m mrs2)).
  { rewrite M2. destruct (Z_le_gt_dec n2 0) as [N|N].
    - replace (Z.max n2 0) with 0 in * by lia.
      rewrite Z.pow_0_r, Z.div_1_r. split; [lia|]. intros ->. lia.
    - replace (Z.max n2 0) with n2 in * by lia. split; [|lia].
      apply div_pow2_ge; [lia|]. rewrite Z.mul_1_l.
      apply pow2_log2_le; [lia|].
      pose proof (Z.log2_nonneg (Zpos p2)).
      unfold n2, SpecFloat.fexp in *. lia. }
  destruct G3 as [G3 G3x].
  destruct (shr_m mrs2) as [|m3|m3]; try lia.
  destruct (e2 <=? emax - prec); [|reflexivity].
  unfold SFleb, SFcompare.
  destruct (Z.compare_spec ex e2) as [Q|Q|Q]; try reflexivity; try lia.
  specialize (G3x (eq_sym Q)).
  change (Pos.compare_cont Eq mx m3) with (mx ?= m3)%positive.
  destruct (Pos.compare_spec mx m3); try reflexivity. lia.
Qed.

Lemma binary_round_ge (s : positive) (e : Z) (mx : positive) (ex : Z) :
  bounded prec emax mx ex = true ->
  e <= ex ->
  Zpos mx * 2 ^ (ex - e) <= Zpos s ->
  SFleb (S754_finite false mx ex) (binary_round prec emax false s e) = true.
Proof.
  intros B He Hs.
  destruct (canonical_fexp mx ex B) as [C _].
  assert (A : Z.log2 (Zpos mx) + (ex - e) <= Z.log2 (Zpos s)).
  { rewrite Z.add_comm, <- Z.log2_mul_pow2 by lia. apply Z.log2_le_mono. exact Hs. }
  assert (E0 : ex <= fexp (Zpos (digits2_pos s) + e)).
  { rewrite <- C, digits2_pos_log2. apply fexp_mono. lia. }
  unfold binary_round, shl_align.
  destruct (fexp (Zpos (digits2_pos s) + e) - e) eqn:D; try lia;
    apply binary_round_aux_ge; assumption.
Qed.

Lemma iter_xO (m d : positive) : Zpos (Pos.iter xO m d) = Zpos m * 2 ^ Zpos d.
Proof.
  induction d as [|d IH] using Pos.peano_ind.
  - cbn [Pos.iter]. lia.
  - rewrite Pos.iter_succ, Pos2Z.inj_xO, IH, Pos2Z.inj_succ, Z.pow_succ_r; lia.
Qed.

Lemma shl_align_fst (m : positive) (e e' : Z) :
  e' <= e -> Zpos (fst (shl_align m e e')) = Zpos m * 2 ^ (e - e').
Proof.
  intros H. unfold shl_align.
  destruct (e' - e) as [|d|d] eqn:D; try lia; cbn [fst].
  - replace (e - e') with 0 by lia. lia.
  - rewrite iter_xO. f_equal. f_equal. lia.
Qed.

(** Adding a non-negative number to a non-negative float does not give
    less. *)
Lemma SFadd_nonneg_ge (x c : spec_float) :
  SpecFloat.valid_binary prec emax x = true ->
  SFleb (S754_zero false) x = true ->
  SFleb (S754_zero false) c = true ->
  SFleb x (SFadd prec emax x c) = true.
Proof.
  intros V X C.
  destruct x as [sx|[]| |[] mx ex]; try discriminate X;
    destruct c as [sc|[]| |[] my ey]; try discriminate C;
    try reflexivity.
  - destruct sx, sc; reflexivity.
  - cbn [SFadd SFleb SFcompare]. rewrite Z.compare_refl, Pos.compare_cont_refl.
    reflexivity.
  - cbn [SFadd cond_Zopp SpecFloat.valid_binary] in *.
    pose proof (shl_align_fst mx ex (Z.min ex ey) ltac:(lia)) as Fx.
    destruct (shl_align mx ex (Z.min ex ey)) as [mx' ex'].
    destruct (shl_align my ey (Z.min ex ey)) as [my' ey'].
    cbn [fst] in *. cbn [Z.add binary_normalize].
    apply binary_round_ge; [exact V|lia|].
    rewrite Pos2Z.inj_add, Fx. lia.
Qed.

(** The sum of two non-negative floats is non-negative. *)
Lemma SFleb_zero_trans (x y : spec_float) :
  SFleb (S754_zero false) x = true ->
  SFleb x y = true ->
  SFleb (S754_zero false) y = true.
Proof.
  destruct x as [sx|[]| |[] mx ex]; try discriminate;
    destruct y as [sy|[]| |[] my ey]; try discriminate; reflexivity.
Qed.

End Rounding.

(** The same on the primitive floats, through the axioms that relate them
    to their specification. *)
Lemma float_add_nonneg_ge (x c : float) :
  (0 <=? x)%float = true -> (0 <=? c)%float = true ->
  (x <=? x + c)%float = true /\ (0 <=? x + c)%float = true.
Proof.
  rewrite !leb_spec, add_spec.
  change (Prim2SF 0) with (S754_zero false).
  intros X C.
  assert (H : SFleb (Prim2SF x) (SF64add (Prim2SF x) (Prim2SF c)) = true).
  { apply SFadd_nonneg_ge; [reflexivity|apply Prim2SF_valid|exact X|exact C]. }
  split; [exact H|].
  exact (SFleb_zero_trans _ _ X H).
Qed.

(** The order of the non-negative floats is transitive. *)
Lemma SFleb_nonneg_trans (x y z : spec_float) :
  SFleb (S754_zero false) x = true ->
  SFleb x y = true ->
  SFleb y z = true ->
  SFleb x z = true.
Proof.
  destruct x as [sx|[]| |[] mx ex]; try discriminate;
    destruct y as [sy|[]| |[] my ey]; try discriminate;
    destruct z as [sz|[]| |[] mz ez]; try discriminate; try reflexivity.
  unfold SFleb, SFcompare. intros _.
  change (Pos.compare_cont Eq) with Pos.compare.
  destruct (Z.compare_spec ex ey), (Z.compare_spec ey ez), (Z.compare_spec ex ez);
    try discriminate; try reflexivity; try lia.
  destruct (Pos.compare_spec mx my), (Pos.compare_spec my mz),
    (Pos.compare_spec mx mz); try discriminate; try reflexivity; lia.
Qed.

Lemma float_leb_nonneg_trans (x y z : float) :
  (0 <=? x)%float = true ->
  (x <=? y)%float = true ->
  (y <=? z)%float = true ->
  (x <=? z)%float = true.
Proof.
  rewrite !leb_spec. change (Prim2SF 0) with (S754_zero false).
  apply SFleb_nonneg_trans.
Qed.

Lemma float_leb_nonneg_refl (x : float) :
  (0 <=? x)%float = true -> (x <=? x)%float = true.
Proof.
  rewrite !leb_spec. change (Prim2SF 0) with (S754_zero false).
  destruct (Prim2SF x) as [sx|[]| |[] mx ex]; try discriminate; try reflexivity.
  intros _. unfold SFleb, SFcompare.
  rewrite Z.compare_refl, Pos.compare_cont_refl. reflexivity.
Qed.

(** ** Token accounting *)

Section TokenUsageFacts.

Import TokenUsage.

Lemma fold_left_Zadd_shift (l : list Z) (a : Z) :
  fold_left Z.add l a = a + sum_Z l.
Proof.
  unfold sum_Z. revert a.
  induction l as [|x l IH]; intros a; simpl.
  - lia.
  - rewrite IH, (IH x). lia.
Qed.

Lemma replay_cons (c : Call) (calls : list Call) (self : t) :
  replay (c :: calls) self
  = replay calls (add_usage self (fst (fst c)) (snd (fst c)) (snd c)).
Proof. destruct c as [[i o] c]. reflexivity. Qed.

Lemma triple_eq {A B C} (a a' : A) (b b' : B) (c c' : C) :
  a = a' -> b = b' -> c = c' -> (a, b, c) = (a', b', c').
Proof. intros -> -> ->. reflexivity. Qed.

Lemma replay_totals (calls : list Call) (self : t) :
  totals (replay calls self)
  = (input_tokens self + sum_Z (map (fun c => fst (fst c)) calls),
     output_tokens self + sum_Z (map (fun c => snd (fst c)) calls),
     sum_float (estimated_cost self) (map snd calls)).
Proof.
  revert self.
  induction calls as [|c calls IH]; intros self.
  - unfold totals, sum_Z, sum_float. simpl. apply triple_eq; try lia. reflexivity.
  - rewrite replay_cons, IH. destruct c as [[i o] c]. simpl.
    unfold sum_Z, sum_float. simpl.
    rewrite (fold_left_Zadd_shift _ i), (fold_left_Zadd_shift _ o).
    unfold sum_Z. apply triple_eq; try lia. reflexivity.
Qed.

(** C2 as stated fails: a call with a negative count lowers a total. *)
Lemma C2_counterexample :
  input_tokens (add_usage (new 0%float) (-1) 0 0%float)
  < input_tokens (new 0%float).
Proof. reflexivity. Qed.

(** C2, as amended: a call of [add_usage] with non-negative counts and a
    non-negative cost, on an instance whose cost so far is non-negative,
    lowers none of the three totals and leaves the cost non-negative; and
    no other method of the class changes the totals. *)
Theorem C2_add_usage_monotone (self : t) (i o : Z) (c : float) :
  0 <= i ->
  0 <= o ->
  (0 <=? c)%float = true ->
  (0 <=? estimated_cost self)%float = true ->
  let self' := add_usage self i o c in
  input_tokens self <= input_tokens self'
  /\ output_tokens self <= output_tokens self'
  /\ (estimated_cost self <=? estimated_cost self')%float = true
  /\ (0 <=? estimated_cost self')%float = true
  /\ forall m, is_add_usage m = false -> totals (call m self) = totals self.
Proof.
  intros Hi Ho Hc Hx self'. subst self'. cbn [add_usage input_tokens output_tokens estimated_cost].
  destruct (float_add_nonneg_ge (estimated_cost self) c Hx Hc) as [M N].
  split; [lia|]. split; [lia|]. split; [exact M|]. split; [exact N|].
  intros [now|i' o' c'|]; try discriminate; intros _; cbn [call]; [|reflexivity].
  unfold post_init. destruct (timestamp self); reflexivity.
Qed.

(** Over any sequence of calls with non-negative arguments the totals
    never go down. *)
Lemma replay_monotone (calls : list Call) (self : t) :
  forallb nonneg_call calls = true ->
  (0 <=? estimated_cost self)%float = true ->
  input_tokens self <= input_tokens (replay calls self)
  /\ output_tokens self <= output_tokens (replay calls self)
  /\ (estimated_cost self <=? estimated_cost (replay calls self))%float = true.
Proof.
  revert self.
  induction calls as [|[[i o] c] calls IH]; intros self H X.
  - cbn [replay fold_left]. split; [lia|]. split; [lia|].
    apply float_leb_nonneg_refl, X.
  - cbn [forallb nonneg_call] in H.
    apply andb_true_iff in H. destruct H as [H Hs].
    apply andb_true_iff in H. destruct H as [H Hc].
    apply andb_true_iff in H. destruct H as [Hi Ho].
    apply Z.leb_le in Hi, Ho.
    destruct (float_add_nonneg_ge (estimated_cost self) c X Hc) as [M N].
    rewrite replay_cons. cbn [fst snd].
    destruct (IH (add_usage self i o c) Hs N) as (I1 & O1 & C1).
    cbn [add_usage input_tokens output_tokens estimated_cost] in I1, O1, C1.
    split; [lia|]. split; [lia|].
    exact (float_leb_nonneg_trans _ _ _ X M C1).
Qed.

(** C4: after any finite sequence of [add_usage] calls the totals are the
    initial totals plus the component-wise sums of the arguments of the
    calls, taken in the order of the calls; on a fresh [TokenUsage] they
    are these sums from the initial zeros, and two fresh accumulators that
    replay the same calls end with the same totals, whenever each was
    created. *)
Theorem C4_totals_are_sums (calls : list Call) (self : t) (now now' : float) :
  totals (replay calls self)
  = (input_tokens self + sum_Z (map (fun c => fst (fst c)) calls),
     output_tokens self + sum_Z (map (fun c => snd (fst c)) calls),
     sum_float (estimated_cost self) (map snd calls))
  /\ totals (replay calls (new now))
     = (sum_Z (map (fun c => fst (fst c)) calls),
        sum_Z (map (fun c => snd (fst c)) calls),
        sum_float 0%float (map snd calls))
  /\ totals (replay calls (new now)) = totals (replay calls (new now')).
Proof.
  split; [apply replay_totals|]. split.
  - rewrite replay_totals. reflexivity.
  - rewrite !replay_totals. reflexivity.
Qed.

(** C6: [get_total_tokens] returns [input_tokens + output_tokens]; it is
    the cumulative count, which every call of [add_usage] raises by the
    two counts of the call. *)
Theorem C6_get_total_tokens (self : t) :
  get_total_tokens self = input_tokens self + output_tokens self
  /\ forall i o c,
       get_total_tokens (add_usage self i o c) = get_total_tokens self + (i + o).
Proof.
  split; [reflexivity|].
  intros i o c. unfold get_total_tokens, add_usage. simpl. lia.
Qed.

End TokenUsageFacts.

(** An instance of C2: 10 and 20 tokens at a cost of 0.5 on a fresh
    accumulator. *)
Lemma C2_add_usage_monotone_witness :
  0 <= 10
  /\ 0 <= 20
  /\ (0 <=? 0.5)%float = true
  /\ (0 <=? TokenUsage.estimated_cost (TokenUsage.new 0%float))%float = true
  /\ TokenUsage.input_tokens (TokenUsage.new 0%float)
     <= TokenUsage.input_tokens
          (TokenUsage.add_usage (TokenUsage.new 0%float) 10 20 0.5%float).
Proof.
  assert (Hi : 0 <= 10) by lia.
  assert (Ho : 0 <= 20) by lia.
  split; [exact Hi|]. split; [exact Ho|]. split; [reflexivity|].
  split; [reflexivity|].
  exact (proj1 (C2_add_usage_monotone (TokenUsage.new 0%float) 10 20 0.5%float
                  Hi Ho eq_refl eq_refl)).
Defined.

(** ** The streaming generator *)

Section StreamingFacts.

Import OpenAIResponseBackend.

Variable rt : Runtime.

Lemma is_completed_type (chunk : Event) :
  is_completed chunk = true -> ev_type chunk = Some "response.completed".
Proof.
  unfold is_completed. destruct (ev_type chunk) as [ty|]; [|discriminate].
  intros H. apply String.eqb_eq in H. now subst.
Qed.

(** A completion event: the cost is computed, the usage is added and
    [done] is yielded, or the cost computation raises and nothing else
    happens. *)
Lemma on_chunk_completed (chunk : Event) (locals : Locals) (self : t) :
  is_completed chunk = true ->
  let locals' := read_usage chunk locals in
  on_chunk rt chunk locals self
  = match calculate_cost rt (input_tokens locals') (output_tokens locals')
            (model self) with
    | Return cost =>
        ([done_chunk],
         set_token_usage self
           (TokenUsage.add_usage (token_usage self) (input_tokens locals')
              (output_tokens locals') cost),
         Return locals')
    | Raise e => ([], self, Raise e)
    end.
Proof.
  intros H. apply is_completed_type in H.
  unfold on_chunk. rewrite H. simpl.
  unfold gbind, read, eval, token_usage_add_usage, yield, gret. simpl.
  destruct (calculate_cost rt _ _ _); reflexivity.
Qed.

(** Any other event: at most one payload chunk, [self] and the token
    counts of the loop are unchanged, nothing is raised. *)
Lemma on_chunk_other (chunk : Event) (locals : Locals) (self : t) :
  is_completed chunk = false ->
  exists out locals',
    on_chunk rt chunk locals self = (out, self, Return locals')
    /\ forallb is_payload out = true
    /\ input_tokens locals' = input_tokens locals
    /\ output_tokens locals' = output_tokens locals.
Proof.
  unfold is_completed, on_chunk. intros H.
  destruct (ev_type chunk) as [ty|].
  - destruct (ty =? "response.output_text.delta")%string.
    + destruct (ev_delta chunk) as [delta|].
      * destruct (delta =? "")%string.
        -- exists [], locals. repeat split; reflexivity.
        -- eexists _, _. repeat split; reflexivity.
      * exists [], locals. repeat split; reflexivity.
    + destruct (ty =? "response.function_call_output.delta")%string.
      * eexists _, _. repeat split; reflexivity.
      * rewrite H. exists [], locals. repeat split; reflexivity.
  - exists [], locals. repeat split; reflexivity.
Qed.

Lemma async_for_next (chunk : Event) (rest : AsyncStream) (locals : Locals)
  (self : t) :
  async_for rt (Next chunk rest) locals self
  = match on_chunk rt chunk locals self with
    | (out, self', Return locals') =>
        let '(out', self'', r) := async_for rt rest locals' self' in
        ((out ++ out')%list, self'', r)
    | (out, self', Raise e) => (out, self', Raise e)
    end.
Proof. reflexivity. Qed.

Lemma payload_not (ty : string) (out : list StreamChunk.t) :
  (ty =? "content")%string = false ->
  (ty =? "tool_calls")%string = false ->
  forallb is_payload out = true ->
  filter (StreamChunk.is_type ty) out = [].
Proof.
  intros Hc Ht. induction out as [|c out IH]; simpl; [reflexivity|].
  intros H. apply andb_true_iff in H. destruct H as [Hp H].
  rewrite (IH H).
  unfold is_payload, StreamChunk.is_type in *.
  destruct (String.eqb_spec (StreamChunk.type c) ty) as [E|]; [|reflexivity].
  rewrite E, Hc, Ht in Hp. discriminate.
Qed.

(** The events before the first completion event yield payload chunks
    only and leave [self] and the token counts of the loop alone. *)
Lemma async_for_feed (events : list Event) (rest : AsyncStream)
  (locals : Locals) (self : t) :
  existsb is_completed events = false ->
  exists out locals',
    forallb is_payload out = true
    /\ input_tokens locals' = input_tokens locals
    /\ output_tokens locals' = output_tokens locals
    /\ async_for rt (feed events rest) locals self
       = let '(out', self', r) := async_for rt rest locals' self in
         ((out ++ out')%list, self', r).
Proof.
  revert locals.
  induction events as [|chunk events IH]; intros locals H.
  - exists [], locals. repeat split.
    simpl. destruct (async_for rt rest locals self) as [[o s] r]. reflexivity.
  - simpl in H. apply orb_false_iff in H. destruct H as [Hc H].
    destruct (on_chunk_other chunk locals self Hc)
      as (out1 & locals1 & E1 & P1 & I1 & O1).
    destruct (IH locals1 H) as (out2 & locals2 & P2 & I2 & O2 & E2).
    exists (out1 ++ out2)%list, locals2. repeat split.
    + rewrite forallb_app, P1, P2. reflexivity.
    + congruence.
    + congruence.
    + change (feed (chunk :: events) rest) with (Next chunk (feed events rest)).
      rewrite async_for_next, E1, E2.
      destruct (async_for rt rest locals2 self) as [[o s] r].
      simpl. rewrite app_assoc. reflexivity.
Qed.

(** A response without a completion event: payload chunks only, [self]
    unchanged, and the run ends as the iteration does. *)
Lemma async_for_no_completion (response : AsyncStream) (locals : Locals)
  (self : t) :
  existsb is_completed (delivered response) = false ->
  exists out,
    forallb is_payload out = true
    /\ async_for rt response locals self = (out, self, ending response).
Proof.
  revert locals.
  induction response as [|chunk rest IH|e]; intros locals H.
  - exists []. split; reflexivity.
  - simpl in H. apply orb_false_iff in H. destruct H as [Hc H].
    destruct (on_chunk_other chunk locals self Hc)
      as (out1 & locals1 & E1 & P1 & _ & _).
    destruct (IH locals1 H) as (out2 & P2 & E2).
    exists (out1 ++ out2)%list. split.
    + rewrite forallb_app, P1, P2. reflexivity.
    + rewrite async_for_next, E1, E2. reflexivity.
  - exists []. split; reflexivity.
Qed.

(** The loop yields payload and [done] chunks, never an [error] chunk. *)
Lemma async_for_no_error (response : AsyncStream) (locals : Locals) (self : t) :
  filter (StreamChunk.is_type "error") (chunks (async_for rt response locals self))
  = [].
Proof.
  revert locals self.
  induction response as [|chunk rest IH|e]; intros locals self;
    [reflexivity| |reflexivity].
  rewrite async_for_next.
  destruct (is_completed chunk) eqn:Hc.
  - rewrite (on_chunk_completed chunk locals self Hc).
    destruct (calculate_cost rt _ _ _) as [cost|e]; [|reflexivity].
    specialize (IH (read_usage chunk locals)
      (set_token_usage self
         (TokenUsage.add_usage (token_usage self)
            (input_tokens (read_usage chunk locals))
            (output_tokens (read_usage chunk locals)) cost))).
    destruct (async_for rt rest _ _) as [[o s] r]. exact IH.
  - destruct (on_chunk_other chunk locals self Hc)
      as (out1 & locals1 & E1 & P1 & _ & _).
    rewrite E1. specialize (IH locals1 self).
    destruct (async_for rt rest locals1 self) as [[o s] r].
    unfold chunks in *. simpl in *.
    rewrite filter_app, IH, app_nil_r.
    apply payload_not; auto.
Qed.

(** The run of the whole generator from the run of the [try] body. *)
Lemma stream_with_tools_body (messages : list Dict) (tools : option (list Val))
  (self : t) :
  stream_with_tools rt messages tools self
  = let run := stream_body rt messages tools self in
    match outcome run with
    | Return _ => (chunks run, after run, Return tt)
    | Raise e => ((chunks run ++ [error_chunk e])%list, after run, Return tt)
    end.
Proof.
  unfold stream_with_tools, try_except, chunks, after, outcome.
  destruct (stream_body rt messages tools self) as [[out self'] [[]|e]];
    reflexivity.
Qed.

(** The run of the [try] body from the provider's answer. *)
Lemma stream_body_response (messages : list Dict) (tools : option (list Val))
  (self : t) :
  stream_body rt messages tools self
  = match create_response self messages tools with
    | Return response => async_for rt response (mkLocals "" 0 0) self
    | Raise e => ([], self, Raise e)
    end.
Proof.
  unfold stream_body, gbind, eval.
  destruct (create_response self messages tools) as [response|e];
    [|reflexivity].
  destruct (async_for rt response _ self) as [[o s] r]. reflexivity.
Qed.

Lemma stream_body_no_error (messages : list Dict) (tools : option (list Val))
  (self : t) :
  filter (StreamChunk.is_type "error") (chunks (stream_body rt messages tools self))
  = [].
Proof.
  rewrite stream_body_response.
  destruct (create_response self messages tools); [|reflexivity].
  apply async_for_no_error.
Qed.

Lemma last_type_snoc (out : list StreamChunk.t) (c : StreamChunk.t) :
  last_type (out ++ [c]) = Some (StreamChunk.type c).
Proof. unfold last_type. rewrite rev_app_distr. reflexivity. Qed.

Lemma count_type_app (ty : string) (out out' : list StreamChunk.t) :
  count_type ty (out ++ out') = (count_type ty out + count_type ty out')%nat.
Proof. unfold count_type. rewrite filter_app, length_app. reflexivity. Qed.

(** The [try] body raises exactly when the preparation raises, the
    provider call raises, or the loop over the response raises. *)
Lemma stream_body_raises (messages : list Dict) (tools : option (list Val))
  (self : t) (e : Exc) :
  outcome (stream_body rt messages tools self) = Raise e
  <-> prepare self messages tools = Raise e
      \/ (exists params,
            prepare self messages tools = Return params
            /\ client self params = Raise e)
      \/ (exists params response,
            prepare self messages tools = Return params
            /\ client self params = Return response
            /\ outcome (async_for rt response (mkLocals "" 0 0) self) = Raise e).
Proof.
  rewrite stream_body_response. unfold create_response, Py.bind.
  destruct (prepare self messages tools) as [params|e0].
  - destruct (client self params) as [response|e1] eqn:C.
    + split.
      * intros H. right. right. now exists params, response.
      * intros [H|[(p & H & H')|(p & r & H & H' & O)]]; try discriminate.
        -- injection H as <-. rewrite C in H'. discriminate.
        -- injection H as <-. rewrite C in H'. injection H' as <-. exact O.
    + split.
      * intros H. right. left. exists params. split; [reflexivity|].
        unfold outcome in H. simpl in H. congruence.
      * intros [H|[(p & H & H')|(p & r & H & H' & _)]]; try discriminate.
        -- injection H as <-. rewrite C in H'. unfold outcome. simpl. congruence.
        -- injection H as <-. rewrite C in H'. discriminate.
  - split.
    + intros H. left. unfold outcome in H. simpl in H. congruence.
    + intros [H|[(p & H & _)|(p & r & H & _)]]; try discriminate.
      unfold outcome. simpl. congruence.
Qed.

(** C3: when the [try] body raises, while the arguments are prepared,
    in the provider call, or while the response is consumed, the
    generator yields one chunk of type [error] with the message of the
    failure and the provider's name as its source; it is the only
    [error] chunk and the last chunk, and the generator returns instead of
    raising. *)
Theorem C3_failure_yields_one_error (messages : list Dict)
  (tools : option (list Val)) (self : t) (e : Exc) :
  outcome (stream_body rt messages tools self) = Raise e ->
  let run := stream_with_tools rt messages tools self in
  outcome run = Return tt
  /\ (exists before,
        chunks run = (before ++ [error_chunk e])%list
        /\ count_type "error" before = O)
  /\ count_type "error" (chunks run) = 1%nat
  /\ last_type (chunks run) = Some "error"
  /\ StreamChunk.type (error_chunk e) = "error"
  /\ StreamChunk.error (error_chunk e) = Some (exc_str e)
  /\ StreamChunk.source (error_chunk e) = Some (get_provider_name self).
Proof.
  intros H run. subst run.
  rewrite stream_with_tools_body. cbv zeta. rewrite H.
  pose proof (stream_body_no_error messages tools self) as N.
  unfold chunks, after, outcome in *. simpl.
  repeat split.
  - exists (fst (fst (stream_body rt messages tools self))). split; [reflexivity|].
    unfold count_type. rewrite N. reflexivity.
  - rewrite count_type_app. unfold count_type at 1. rewrite N. reflexivity.
  - apply last_type_snoc.
Qed.

(** C1, as amended: when no failure is raised and the response carries
    one completion event, as its last event, exactly one [done] chunk is
    yielded and it is the last chunk. *)
Theorem C1_one_done_last (messages : list Dict) (tools : option (list Val))
  (self : t) (events : list Event) (chunk : Event) :
  create_response self messages tools = Return (feed events (Next chunk Stop)) ->
  existsb is_completed events = false ->
  is_completed chunk = true ->
  outcome (stream_body rt messages tools self) = Return tt ->
  one_done_last (chunks (stream_with_tools rt messages tools self)) = true.
Proof.
  intros Hr He Hc Ho.
  rewrite stream_with_tools_body. cbv zeta. rewrite Ho.
  rewrite stream_body_response, Hr in Ho |- *.
  destruct (async_for_feed events (Next chunk Stop) (mkLocals "" 0 0) self He)
    as (out & locals & P & _ & _ & E).
  rewrite E in Ho |- *. clear E.
  rewrite async_for_next, (on_chunk_completed chunk locals self Hc) in Ho |- *.
  destruct (calculate_cost rt _ _ _) as [cost|e]; [|discriminate Ho].
  unfold chunks. simpl.
  unfold one_done_last. rewrite last_type_snoc, count_type_app.
  unfold count_type at 1.
  rewrite (payload_not "done" out eq_refl eq_refl P). reflexivity.
Qed.

(** C5, as amended: at the first completion event of a response, when
    the cost computation returns, the token counts are those of the
    event's usage metadata, each 0 when absent; they are added to the
    accumulator with that cost, a [done] chunk with status "completed" is
    yielded after the payload chunks of the earlier events, and the run
    goes on with the rest of the response. *)
Theorem C5_completion_accounts_usage (messages : list Dict)
  (tools : option (list Val)) (self : t) (events : list Event) (chunk : Event)
  (rest : AsyncStream) (cost : float) :
  create_response self messages tools = Return (feed events (Next chunk rest)) ->
  existsb is_completed events = false ->
  is_completed chunk = true ->
  calculate_cost rt (fst (usage_of chunk)) (snd (usage_of chunk)) (model self)
  = Return cost ->
  exists before locals,
    forallb is_payload before = true
    /\ input_tokens locals = fst (usage_of chunk)
    /\ output_tokens locals = snd (usage_of chunk)
    /\ stream_body rt messages tools self
       = (let '(more, self', r) :=
            async_for rt rest locals
              (set_token_usage self
                 (TokenUsage.add_usage (token_usage self) (fst (usage_of chunk))
                    (snd (usage_of chunk)) cost)) in
          ((before ++ done_chunk :: more)%list, self', r))
    /\ StreamChunk.type done_chunk = "done"
    /\ StreamChunk.status done_chunk = Some "completed".
Proof.
  intros Hr He Hc Hcost.
  destruct (async_for_feed events (Next chunk rest) (mkLocals "" 0 0) self He)
    as (out & locals & P & I & O & E).
  assert (U : input_tokens (read_usage chunk locals) = fst (usage_of chunk)
              /\ output_tokens (read_usage chunk locals) = snd (usage_of chunk)).
  { unfold read_usage, usage_of. destruct (ev_usage chunk); simpl; auto. }
  destruct U as [Ui Uo].
  exists out, (read_usage chunk locals). repeat split; auto.
  rewrite stream_body_response, Hr, E.
  rewrite async_for_next, (on_chunk_completed chunk locals self Hc).
  cbv zeta. rewrite Ui, Uo, Hcost.
  destruct (async_for rt rest _ _) as [[more self'] r]. reflexivity.
Qed.

(** The accumulator changes only together with a [done] chunk: a run
    that yields none leaves [self] as it was. *)
Lemma async_for_without_done (response : AsyncStream) (locals : Locals)
  (self : t) :
  count_type "done" (chunks (async_for rt response locals self)) = O ->
  after (async_for rt response locals self) = self.
Proof.
  revert locals self.
  induction response as [|chunk rest IH|e]; intros locals self;
    [reflexivity| |reflexivity].
  rewrite async_for_next.
  destruct (is_completed chunk) eqn:Hc.
  - rewrite (on_chunk_completed chunk locals self Hc).
    destruct (calculate_cost rt _ _ _) as [cost|e]; [|reflexivity].
    destruct (async_for rt rest _ _) as [[o s] r].
    unfold chunks, count_type. simpl. discriminate.
  - destruct (on_chunk_other chunk locals self Hc)
      as (out1 & locals1 & E1 & P1 & _ & _).
    rewrite E1. specialize (IH locals1 self).
    destruct (async_for rt rest locals1 self) as [[o s] r].
    unfold chunks, after in *. simpl in *.
    rewrite count_type_app. intros H. apply IH. lia.
Qed.

Lemma stream_with_tools_without_done (messages : list Dict)
  (tools : option (list Val)) (self : t) :
  count_type "done" (chunks (stream_with_tools rt messages tools self)) = O ->
  token_usage (after (stream_with_tools rt messages tools self))
  = token_usage self.
Proof.
  rewrite stream_with_tools_body. cbv zeta. rewrite stream_body_response.
  destruct (create_response self messages tools) as [response|e];
    [|reflexivity].
  pose proof (async_for_without_done response (mkLocals "" 0 0) self) as A.
  destruct (async_for rt response _ self) as [[o s] [[]|e]];
    unfold chunks, after, outcome in *; simpl in *.
  - intros H. rewrite (A H). reflexivity.
  - rewrite count_type_app. intros H. rewrite A by lia. reflexivity.
Qed.

(** C8: a run that ends with an [error] chunk and whose response, if the
    provider gave one, delivered no completion event leaves the
    accumulator as it was. *)
Theorem C8_error_leaves_usage (messages : list Dict) (tools : option (list Val))
  (self : t) :
  let run := stream_with_tools rt messages tools self in
  last_type (chunks run) = Some "error" ->
  (forall response,
     create_response self messages tools = Return response ->
     existsb is_completed (delivered response) = false) ->
  token_usage (after run) = token_usage self.
Proof.
  intros run _ H. subst run.
  rewrite stream_with_tools_body. cbv zeta.
  assert (A : after (stream_body rt messages tools self) = self).
  { rewrite stream_body_response.
    destruct (create_response self messages tools) as [response|e] eqn:R;
      [|reflexivity].
    destruct (async_for_no_completion response (mkLocals "" 0 0) self
                (H response eq_refl)) as (out & _ & E).
    rewrite E. reflexivity. }
  destruct (outcome (stream_body rt messages tools self));
    unfold after in *; simpl; rewrite A; reflexivity.
Qed.

End StreamingFacts.

Import OpenAIResponseBackend.

(** An instance of C3: the connection breaks after one delta. *)
Lemma C3_failure_yields_one_error_witness :
  outcome (stream_body (sample_runtime sample_broken) [] None
             (sample_backend sample_broken))
  = Raise connection_error
  /\ count_type "error"
       (chunks (stream_with_tools (sample_runtime sample_broken) [] None
                  (sample_backend sample_broken)))
     = 1%nat.
Proof.
  split; [reflexivity|].
  exact (proj1 (proj2 (proj2
    (C3_failure_yields_one_error (sample_runtime sample_broken) [] None
       (sample_backend sample_broken) connection_error eq_refl)))).
Defined.

(** C1 as stated fails: when the provider rejects the call the only
    chunk is an [error] chunk, and no [done] chunk is yielded. *)
Lemma C1_counterexample :
  chunks (stream_with_tools (sample_runtime sample_rejected) [] None
            (sample_backend sample_rejected))
  = [error_chunk connection_error]
  /\ one_done_last
       (chunks (stream_with_tools (sample_runtime sample_rejected) [] None
                  (sample_backend sample_rejected)))
     = false.
Proof. split; reflexivity. Qed.

(** An instance of C1: one delta, then the completion event. *)
Lemma C1_one_done_last_witness :
  create_response (sample_backend sample_completed) [] None
  = Return (feed [text_delta "Hi"] (Next (completed_event usage_10_20) Stop))
  /\ existsb is_completed [text_delta "Hi"] = false
  /\ is_completed (completed_event usage_10_20) = true
  /\ outcome (stream_body (sample_runtime sample_completed) [] None
                (sample_backend sample_completed))
     = Return tt
  /\ one_done_last
       (chunks (stream_with_tools (sample_runtime sample_completed) [] None
                  (sample_backend sample_completed)))
     = true.
Proof.
  split; [reflexivity|]. split; [reflexivity|]. split; [reflexivity|].
  split; [reflexivity|].
  exact (C1_one_done_last (sample_runtime sample_completed) [] None
           (sample_backend sample_completed) [text_delta "Hi"]
           (completed_event usage_10_20) eq_refl eq_refl eq_refl eq_refl).
Defined.

(** C5 as stated fails: a completion event without usage metadata that
    follows one with 10 and 20 tokens adds 10 and 20 again, not 0. *)
Lemma C5_counterexample :
  let run := stream_with_tools (sample_runtime sample_twice) [] None
               (sample_backend sample_twice) in
  let spec := spec_usage (sample_runtime sample_twice)
                [completed_event usage_10_20; completed_event None] "gpt-4o"
                (token_usage (sample_backend sample_twice)) in
  usage_of (completed_event None) = (0, 0)
  /\ TokenUsage.input_tokens (token_usage (after run)) = 20
  /\ TokenUsage.output_tokens (token_usage (after run)) = 40
  /\ TokenUsage.input_tokens spec = 10
  /\ TokenUsage.output_tokens spec = 20
  /\ token_usage (after run) <> spec.
Proof.
  cbv zeta. repeat split.
  intros H. apply (f_equal TokenUsage.input_tokens) in H.
  vm_compute in H. discriminate H.
Qed.

(** An instance of C5: 10 and 20 tokens on the model "gpt-4o". *)
Lemma C5_completion_accounts_usage_witness :
  create_response (sample_backend sample_completed) [] None
  = Return (feed [text_delta "Hi"] (Next (completed_event usage_10_20) Stop))
  /\ existsb is_completed [text_delta "Hi"] = false
  /\ is_completed (completed_event usage_10_20) = true
  /\ calculate_cost (sample_runtime sample_completed) 10 20 "gpt-4o"
     = Return 0.00022500000000000002%float
  /\ exists before locals,
       forallb is_payload before = true
       /\ input_tokens locals = 10
       /\ output_tokens locals = 20
       /\ stream_body (sample_runtime sample_completed) [] None
            (sample_backend sample_completed)
          = (let '(more, self', r) :=
               async_for (sample_runtime sample_completed) Stop locals
                 (set_token_usage (sample_backend sample_completed)
                    (TokenUsage.add_usage
                       (token_usage (sample_backend sample_completed)) 10 20
                       0.00022500000000000002%float)) in
             ((before ++ done_chunk :: more)%list, self', r))
       /\ StreamChunk.type done_chunk = "done"
       /\ StreamChunk.status done_chunk = Some "completed".
Proof.
  split; [reflexivity|]. split; [reflexivity|]. split; [reflexivity|].
  split; [reflexivity|].
  exact (C5_completion_accounts_usage (sample_runtime sample_completed) [] None
           (sample_backend sample_completed) [text_delta "Hi"]
           (completed_event usage_10_20) Stop 0.00022500000000000002%float
           eq_refl eq_refl eq_refl eq_refl).
Defined.

(** An instance of C8: the connection breaks before any completion
    event. *)
Lemma C8_error_leaves_usage_witness :
  last_type (chunks (stream_with_tools (sample_runtime sample_broken) [] None
                       (sample_backend sample_broken)))
  = Some "error"
  /\ (forall response,
        create_response (sample_backend sample_broken) [] None = Return response ->
        existsb is_completed (delivered response) = false)
  /\ token_usage (after (stream_with_tools (sample_runtime sample_broken) [] None
                           (sample_backend sample_broken)))
     = token_usage (sample_backend sample_broken).
Proof.
  assert (H : forall response,
             create_response (sample_backend sample_broken) [] None
             = Return response ->
             existsb is_completed (delivered response) = false).
  { intros response E. injection E as <-. reflexivity. }
  split; [reflexivity|]. split; [exact H|].
  exact (C8_error_leaves_usage (sample_runtime sample_broken) [] None
           (sample_backend sample_broken) eq_refl H).
Defined.

(** ** The token estimate *)

(** C9: [estimate_tokens] is the floor of the length divided by 4: it is
    never negative, it is 0 below four characters, and it does not
    decrease when the text gets longer. *)
Theorem C9_estimate_tokens (text text' : string) :
  let n := Z.of_nat (String.length text) in
  let estimate := ChatCompletionsBackend.estimate_tokens in
  estimate text = n / 4
  /\ 4 * estimate text <= n < 4 * estimate text + 4
  /\ 0 <= estimate text
  /\ ((String.length text < 4)%nat -> estimate text = 0)
  /\ ((String.length text <= String.length text')%nat ->
      estimate text <= estimate text').
Proof.
  cbv zeta. unfold ChatCompletionsBackend.estimate_tokens.
  pose proof (Z.div_mod (Z.of_nat (String.length text)) 4 ltac:(lia)) as D.
  pose proof (Z.mod_pos_bound (Z.of_nat (String.length text)) 4 ltac:(lia)) as M.
  split; [reflexivity|]. split; [lia|].
  split; [apply Z.div_pos; lia|].
  split; intros H.
  - apply Z.div_small. lia.
  - apply Z.div_le_mono; lia.
Qed.

(** ** The factory *)

(** C10 as stated fails: for the provider "openai" with no key in the
    arguments or in the environment, the constructor raises and no
    backend is returned. *)
Lemma C10_counterexample :
  create_backend (sample_runtime sample_completed) "openai" "gpt-4o"
    (mkConfig None None None None)
  = Raise (mkExc "ValueError" "OpenAI API key not found")
  /\ ~ ((exists backend,
           create_backend (sample_runtime sample_completed) "openai" "gpt-4o"
             (mkConfig None None None None)
           = Return backend)
        <-> lower "openai" = "openai").
Proof.
  split; [reflexivity|].
  intros [_ H]. destruct (H eq_refl) as [backend E]. discriminate E.
Qed.

(** C10, as amended: [create_backend] returns a backend exactly when the
    provider is "openai" up to case, the [openai] package can be
    imported and a non-empty key is found in the arguments or in
    [OPENAI_API_KEY]; for every other provider, "anthropic", "google" and
    "xai" among them, it raises [ValueError]. *)
Theorem C10_create_backend (rt : Runtime) (provider model : string)
  (kwargs : Config) :
  ((exists backend, create_backend rt provider model kwargs = Return backend)
   <-> lower provider = "openai"
       /\ AsyncOpenAI rt <> None
       /\ exists key, api_key_val rt kwargs = Some key /\ key <> "")
  /\ (lower provider <> "openai" ->
      create_backend rt provider model kwargs
      = Raise (mkExc "ValueError" ("Unsupported provider: " ++ provider)))
  /\ (In provider ["anthropic"; "google"; "xai"] ->
      create_backend rt provider model kwargs
      = Raise (mkExc "ValueError" ("Unsupported provider: " ++ provider))).
Proof.
  unfold create_backend, init, api_key_val. simpl.
  destruct (String.eqb_spec (lower provider) "openai") as [E|N].
  - split; [|split].
    + destruct (AsyncOpenAI rt) as [ctor|].
      * destruct (str_or (cfg_api_key kwargs) (getenv rt "OPENAI_API_KEY"))
          as [key|].
        -- destruct (String.eqb_spec key "") as [K|K].
           ++ split.
              ** intros [b H]. discriminate H.
              ** intros (_ & _ & key' & H & N). injection H as <-. contradiction.
           ++ split.
              ** intros _. split; [exact E|]. split; [discriminate|].
                 now exists key.
              ** intros _. eexists. reflexivity.
        -- split.
           ++ intros [b H]. discriminate H.
           ++ intros (_ & _ & key' & H & _). discriminate H.
      * split.
        -- intros [b H]. discriminate H.
        -- intros (_ & H & _). contradiction.
    + intros H. contradiction.
    + intros [H|[H|[H|[]]]]; subst provider; discriminate E.
  - split; [|split].
    + split.
      * intros [b H]. discriminate H.
      * intros [H _]. contradiction.
    + reflexivity.
    + reflexivity.
Qed.

(** ** The agent timeout scenario *)

Section OrchestrationFacts.

Import Orchestration.

Variable cfg : TimeoutConfig.
Hypothesis agent_timeout : agent_timeout_seconds cfg = 10.
Hypothesis fallback : enable_timeout_fallback cfg = true.

Lemma merge_nil_r (l : list Item) : merge l [] = l.
Proof. destruct l; reflexivity. Qed.

Lemma string_app_assoc (a b c : string) : ((a ++ b) ++ c = a ++ (b ++ c))%string.
Proof. induction a as [|x a IH]; simpl; [reflexivity|]. now rewrite IH. Qed.

Lemma exceeded_message_contains (scope : string) (kind : Kind) :
  contains (exceeded_message scope kind) "time limit exceeded".
Proof.
  exists (scope ++ ": "), (" (" ++ kind_name kind ++ ")").
  unfold exceeded_message. rewrite string_app_assoc. reflexivity.
Qed.

Lemma timed_out_end_cons (c : StreamChunk.t) (out : list StreamChunk.t) :
  timed_out_end out -> timed_out_end (c :: out).
Proof.
  intros (before & e & d & message & -> & H).
  exists (c :: before), e, d, message. split; [reflexivity|exact H].
Qed.

(** A global exceed stops the run with the orchestrator's own [error]
    and [done]. *)
Lemma stop_end (relayed : list StreamChunk.t) (kind : Kind) :
  exists out, stop cfg relayed kind = Return out /\ timed_out_end out.
Proof.
  unfold stop. rewrite fallback. eexists. split; [reflexivity|].
  exists relayed, (orchestrator_error (exceeded_message "orchestrator" kind)),
    (orchestrator_done "timed_out"), (exceeded_message "orchestrator" kind).
  repeat split. apply exceeded_message_contains.
Qed.

(** The chunks of an agent cut off, relayed when no agent has
    completed. *)
Lemma relay_cut_off (agent : string) (seconds : Q) (kind : Kind)
  (n global_tokens : Z) (seen : Seen) :
  some_completed seen = false ->
  exists out,
    relay cfg (cut_off cfg agent seconds kind n) global_tokens seen = Return out
    /\ timed_out_end out.
Proof.
  intros S. unfold cut_off. rewrite fallback.
  cbn [relay item_seconds item_payload item_tokens item_agent].
  destruct (over_time seconds (orchestrator_timeout_seconds cfg));
    [apply stop_end|].
  change (StreamChunk.is_type "done" (agent_error agent (exceeded_message "agent" kind)))
    with false.
  change (StreamChunk.is_type "done" (agent_done agent "timed_out")) with true.
  cbv iota.
  destruct (check seconds (global_tokens + n) _ _) as [|k]; [|apply stop_end].
  destruct (check seconds (global_tokens + n + 0) _ _) as [|k'].
  - simpl. unfold final_status, see. simpl. rewrite S. simpl.
    eexists. split; [reflexivity|].
    exists [], (tag agent (agent_error agent (exceeded_message "agent" kind))),
      (orchestrator_done "timed_out"), (exceeded_message "agent" kind).
    repeat split. apply exceeded_message_contains.
  - destruct (stop_end [] k') as (out & E & T). rewrite E. simpl.
    eexists. split; [reflexivity|]. apply timed_out_end_cons, T.
Qed.

Lemma relay_respond (agent : string) (backend : Backend)
  (consumed global_tokens : Z) (seen : Seen) :
  never_completes_within 10 backend = true ->
  some_completed seen = false ->
  exists out,
    relay cfg (respond cfg agent backend consumed) global_tokens seen = Return out
    /\ timed_out_end out.
Proof.
  revert consumed global_tokens seen.
  induction backend as [seconds chunk n rest IH|seconds|seconds e|];
    intros consumed global_tokens seen N S;
    cbn [never_completes_within] in N; cbn [respond]; rewrite agent_timeout.
  - destruct (over_time seconds 10) eqn:O; [apply relay_cut_off, S|].
    cbn [orb] in N. apply andb_true_iff in N. destruct N as [R N].
    apply negb_true_iff in R. cbv zeta. rewrite R.
    unfold check at 1. rewrite O.
    cbn [relay item_seconds item_payload item_tokens item_agent].
    destruct (over_time seconds (orchestrator_timeout_seconds cfg));
      [apply stop_end|].
    rewrite R.
    destruct (check seconds (global_tokens + n) _ _) as [|k]; [|apply stop_end].
    assert (S' : some_completed (see seen chunk) = false).
    { unfold see. rewrite R. exact S. }
    destruct (agent_max_tokens cfg <? consumed + n).
    + destruct (relay_cut_off agent seconds KTokens 0 (global_tokens + n)
                  (see seen chunk) S') as (out & E & T).
      rewrite E. simpl. eexists. split; [reflexivity|].
      apply timed_out_end_cons, T.
    + destruct (IH (consumed + n) (global_tokens + n) (see seen chunk) N S')
        as (out & E & T).
      rewrite E. simpl. eexists. split; [reflexivity|].
      apply timed_out_end_cons, T.
  - rewrite N. apply relay_cut_off, S.
  - rewrite N. apply relay_cut_off, S.
  - apply relay_cut_off, S.
Qed.

End OrchestrationFacts.

(** C7: in a run configured with [agent_timeout_seconds = 10] and
    [agent_max_tokens = 1000], with the timeout fallback on as in the
    test, against a backend that never completes within 10 seconds, the
    merged stream ends with an [error] chunk whose message contains
    "time limit exceeded", followed by a [done] chunk with the degraded
    status "timed_out". *)
Theorem C7_agent_timeout_scenario (cfg : Orchestration.TimeoutConfig)
  (backend : Orchestration.Backend) :
  Orchestration.agent_timeout_seconds cfg = 10 ->
  Orchestration.agent_max_tokens cfg = 1000 ->
  Orchestration.enable_timeout_fallback cfg = true ->
  Orchestration.never_completes_within 10 backend = true ->
  exists out,
    Orchestration.chat cfg (Orchestration.test_agents backend) = Return out
    /\ Orchestration.timed_out_end out.
Proof.
  intros T _ F N.
  unfold Orchestration.chat, Orchestration.test_agents, Orchestration.merge_all.
  simpl. rewrite merge_nil_r.
  apply relay_respond; [exact T|exact F|exact N|reflexivity].
Qed.

Import Orchestration.

(** An instance of C7: the configuration of the test and a backend that
    yields once and then stalls. *)
Lemma C7_agent_timeout_scenario_witness :
  agent_timeout_seconds test_timeout_config = 10
  /\ agent_max_tokens test_timeout_config = 1000
  /\ enable_timeout_fallback test_timeout_config = true
  /\ never_completes_within 10 stalled_backend = true
  /\ exists out,
       chat test_timeout_config (test_agents stalled_backend) = Return out
       /\ timed_out_end out.
Proof.
  split; [reflexivity|]. split; [reflexivity|]. split; [reflexivity|].
  split; [reflexivity|].
  exact (C7_agent_timeout_scenario test_timeout_config stalled_backend
           eq_refl eq_refl eq_refl eq_refl).
Defined.

(** The runs of the test's configuration against the sample backends.
    The backend that stalls, the one still streaming after eleven
    seconds and the one that raises after eleven seconds are all cut off
    as the ten seconds pass: what they do later is never seen. *)
Lemma chat_cut_off_at_ten_seconds :
  never_completes_within 10 stalled_backend = true
  /\ never_completes_within 10 slow_backend = true
  /\ never_completes_within 10 late_failure = true
  /\ chat test_timeout_config (test_agents stalled_backend)
     = Return [tag "test_agent" (text_chunk "Once");
               agent_error "test_agent" "agent: time limit exceeded (time)";
               orchestrator_done "timed_out"]
  /\ chat test_timeout_config (test_agents slow_backend)
     = chat test_timeout_config (test_agents stalled_backend)
  /\ chat test_timeout_config (test_agents late_failure)
     = chat test_timeout_config (test_agents stalled_backend).
Proof. repeat split. Qed.

(** The third scenario of section 8: a backend that raises at once is
    not one that never completes within ten seconds; the run gives one
    [error] chunk naming the agent, with the failure and no timeout, then
    [done] with the status "failed". *)
Lemma chat_failing_backend :
  never_completes_within 10 failing_backend = false
  /\ chat test_timeout_config (test_agents failing_backend)
     = Return [agent_error "test_agent" "Connection error.";
               orchestrator_done "failed"].
Proof. split; reflexivity. Qed.

(** * Further properties of the code *)

(** ** [TokenUsage] *)

Section TokenUsageMore.

Import TokenUsage.

(** X1: [__post_init__] keeps a timestamp that was given, sets a missing
    one, never touches the totals, and changes nothing when it runs
    again. *)
Theorem X1_post_init_idempotent (now now' : float) (self : t) :
  post_init now' (post_init now self) = post_init now self
  /\ timestamp (post_init now self)
     = Some (match timestamp self with Some given => given | None => now end)
  /\ totals (post_init now self) = totals self.
Proof.
  unfold post_init. destruct (timestamp self) as [given|] eqn:E.
  - rewrite E. repeat split.
  - repeat split.
Qed.

Lemma sum_Z_cons (x : Z) (l : list Z) : sum_Z (x :: l) = x + sum_Z l.
Proof. unfold sum_Z. simpl. apply fold_left_Zadd_shift. Qed.

Lemma sum_Z_perm (l l' : list Z) : Permutation l l' -> sum_Z l = sum_Z l'.
Proof.
  induction 1 as [|x l l' _ IH|x y l|l l' l'' _ IH1 _ IH2].
  - reflexivity.
  - rewrite !sum_Z_cons, IH. reflexivity.
  - rewrite !sum_Z_cons. lia.
  - congruence.
Qed.

Lemma replay_app (calls calls' : list Call) (self : t) :
  replay (calls ++ calls') self = replay calls' (replay calls self).
Proof. unfold replay. apply fold_left_app. Qed.

(** X2: calls made one sequence after another compose, and the token
    counts do not depend on the order of the calls: two sequences with
    the same calls in any order give the same [input_tokens],
    [output_tokens] and total. *)
Theorem X2_replay_order (calls calls' more : list Call) (self : t) :
  replay (calls ++ more) self = replay more (replay calls self)
  /\ (Permutation calls calls' ->
      input_tokens (replay calls self) = input_tokens (replay calls' self)
      /\ output_tokens (replay calls self) = output_tokens (replay calls' self)
      /\ get_total_tokens (replay calls self)
         = get_total_tokens (replay calls' self)).
Proof.
  split; [apply replay_app|]. intros P.
  pose proof (replay_totals calls self) as T.
  pose proof (replay_totals calls' self) as T'.
  unfold totals in T, T'. injection T as I O _. injection T' as I' O' _.
  assert (EI : input_tokens (replay calls self) = input_tokens (replay calls' self)).
  { rewrite I, I'. f_equal. apply sum_Z_perm, Permutation_map, P. }
  assert (EO : output_tokens (replay calls self) = output_tokens (replay calls' self)).
  { rewrite O, O'. f_equal. apply sum_Z_perm, Permutation_map, P. }
  unfold get_total_tokens. rewrite EI, EO. repeat split.
Qed.

(** X3: over any sequence of [add_usage] calls with non-negative counts
    and costs, on an instance whose cost so far is non-negative, none of
    the three totals ends below its starting value. *)
Theorem X3_replay_never_lowers (calls : list Call) (self : t) :
  forallb nonneg_call calls = true ->
  (0 <=? estimated_cost self)%float = true ->
  input_tokens self <= input_tokens (replay calls self)
  /\ output_tokens self <= output_tokens (replay calls self)
  /\ (estimated_cost self <=? estimated_cost (replay calls self))%float = true
  /\ get_total_tokens self <= get_total_tokens (replay calls self).
Proof.
  intros H X. destruct (replay_monotone calls self H X) as (I & O & C).
  repeat split; try assumption. unfold get_total_tokens. lia.
Qed.

End TokenUsageMore.

(** An instance of X3: two calls on a fresh accumulator. *)
Lemma X3_replay_never_lowers_witness :
  forallb TokenUsage.nonneg_call [(10, 20, 0.5%float); (0, 7, 0.25%float)] = true
  /\ (0 <=? TokenUsage.estimated_cost (TokenUsage.new 0%float))%float = true
  /\ TokenUsage.input_tokens (TokenUsage.new 0%float)
     <= TokenUsage.input_tokens
          (TokenUsage.replay [(10, 20, 0.5%float); (0, 7, 0.25%float)]
             (TokenUsage.new 0%float)).
Proof.
  split; [reflexivity|]. split; [reflexivity|].
  exact (proj1 (X3_replay_never_lowers [(10, 20, 0.5%float); (0, 7, 0.25%float)]
                  (TokenUsage.new 0%float) eq_refl eq_refl)).
Defined.

(** ** [ChatCompletionsBackend] *)

Lemma string_length_app (a b : string) :
  String.length (a ++ b) = (String.length a + String.length b)%nat.
Proof. induction a as [|c a IH]; simpl; [reflexivity|]. now rewrite IH. Qed.

(** X4: the estimate of a concatenation is the sum of the two estimates,
    or one more. *)
Theorem X4_estimate_tokens_app (a b : string) :
  let estimate := ChatCompletionsBackend.estimate_tokens in
  estimate a + estimate b <= estimate (a ++ b) <= estimate a + estimate b + 1.
Proof.
  cbv zeta. unfold ChatCompletionsBackend.estimate_tokens.
  rewrite string_length_app, Nat2Z.inj_add.
  generalize (Z.of_nat (String.length a)) (Z.of_nat (String.length b)).
  intros x y.
  pose proof (Z.div_mod x 4 ltac:(lia)).
  pose proof (Z.mod_pos_bound x 4 ltac:(lia)).
  pose proof (Z.div_mod y 4 ltac:(lia)).
  pose proof (Z.mod_pos_bound y 4 ltac:(lia)).
  pose proof (Z.div_mod (x + y) 4 ltac:(lia)).
  pose proof (Z.mod_pos_bound (x + y) 4 ltac:(lia)).
  lia.
Qed.

(** X5: [format_tools_for_api] returns the tools it is given, in order,
    whether they are dicts or not. *)
Theorem X5_format_tools_for_api_keeps (tools : list Val) :
  ChatCompletionsBackend.format_tools_for_api tools = tools.
Proof.
  induction tools as [|tool rest IH]; simpl; [reflexivity|].
  rewrite IH. destruct (is_dict tool); reflexivity.
Qed.

(** ** The arguments of the provider call *)

Section PrepareFacts.

Import OpenAIResponseBackend.

Lemma is_only_type_eq (tool : Dict) (name : string) :
  is_only_type tool name = true -> tool = [("type", VStr name)].
Proof.
  destruct tool as [|[k [| | |v| |]] [|]]; try discriminate. simpl.
  intros H. apply andb_true_iff in H. destruct H as [K V].
  apply String.eqb_eq in K, V. now subst.
Qed.

(** What [_format_tools_for_response_api] makes of one dict. *)
Lemma format_tools_cons_dict (tool : Dict) (rest : list Val) :
  exists formatted,
    format_tools_for_response_api (VDict tool :: rest)
    = VDict formatted :: format_tools_for_response_api rest
    /\ dict_get formatted "type" = dict_get tool "type"
    /\ format_tools_for_response_api [VDict formatted] = [VDict formatted].
Proof.
  cbn [format_tools_for_response_api].
  destruct (eq_str (dict_get tool "type") "function") eqn:F.
  - exists tool. repeat split. now rewrite F.
  - destruct (is_only_type tool "web_search_preview") eqn:W.
    + apply is_only_type_eq in W. subst tool. eexists. repeat split.
    + destruct (is_only_type tool "code_interpreter") eqn:C.
      * apply is_only_type_eq in C. subst tool. eexists. repeat split.
      * exists tool. repeat split. now rewrite F, W, C.
Qed.

Lemma format_tools_cons_other (tool : Val) (rest : list Val) :
  is_dict tool = false ->
  format_tools_for_response_api (tool :: rest)
  = format_tools_for_response_api rest.
Proof. destruct tool; try reflexivity. discriminate. Qed.

Lemma format_tools_cons_one (formatted : Dict) (rest : list Val) :
  format_tools_for_response_api [VDict formatted] = [VDict formatted] ->
  format_tools_for_response_api (VDict formatted :: rest)
  = VDict formatted :: format_tools_for_response_api rest.
Proof.
  cbn [format_tools_for_response_api]. intros H. injection H as ->.
  reflexivity.
Qed.

Lemma format_tools_dicts (tools : list Val) :
  forallb is_dict (format_tools_for_response_api tools) = true
  /\ List.length (format_tools_for_response_api tools)
     = List.length (filter is_dict tools)
  /\ map tool_type (format_tools_for_response_api tools)
     = map tool_type (filter is_dict tools).
Proof.
  induction tools as [|tool rest (D & L & T)]; [repeat split|].
  destruct (is_dict tool) eqn:E.
  - destruct tool; try discriminate E.
    destruct (format_tools_cons_dict kv rest) as (formatted & -> & Ty & _).
    cbn [filter is_dict forallb List.length map tool_type andb].
    rewrite D, L, T, Ty. repeat split.
  - rewrite (format_tools_cons_other tool rest E).
    cbn [filter]. rewrite E. repeat split; assumption.
Qed.

(** X6: [_format_tools_for_response_api] drops every tool that is not a
    dict and keeps exactly one dict per dict of its input, in order and
    with the same "type". *)
Theorem X6_format_tools_dicts (tools : list Val) :
  let formatted := format_tools_for_response_api tools in
  forallb is_dict formatted = true
  /\ List.length formatted = List.length (filter is_dict tools)
  /\ map tool_type formatted = map tool_type (filter is_dict tools).
Proof. exact (format_tools_dicts tools). Qed.

(** X7: formatting tools that are already formatted changes nothing. *)
Theorem X7_format_tools_idempotent (tools : list Val) :
  format_tools_for_response_api (format_tools_for_response_api tools)
  = format_tools_for_response_api tools.
Proof.
  induction tools as [|tool rest IH]; [reflexivity|].
  destruct (is_dict tool) eqn:E.
  - destruct tool; try discriminate E.
    destruct (format_tools_cons_dict kv rest) as (formatted & -> & _ & One).
    rewrite (format_tools_cons_one formatted _ One), IH. reflexivity.
  - rewrite (format_tools_cons_other tool rest E). exact IH.
Qed.

Lemma last_system_content_cons (message : Dict) (rest : list Dict) :
  last_system_content (message :: rest)
  = match rev (filter is_system rest) with
    | [] => if is_system message then dict_get message "content" else None
    | last :: _ => dict_get last "content"
    end.
Proof.
  unfold last_system_content. cbn [filter].
  destruct (is_system message); [|destruct (rev _); reflexivity].
  cbn [rev]. destruct (rev (filter is_system rest)); reflexivity.
Qed.

(** The loop over the messages (lines 230-234). *)
Lemma split_messages_spec (messages : list Dict) (instructions : Val)
  (input_messages : list Dict) :
  split_messages messages instructions input_messages
  = if existsb lacks_content messages
    then Raise (mkExc "KeyError" "'content'")
    else Return
           (match last_system_content messages with
            | Some c => c
            | None => instructions
            end,
            (input_messages
             ++ filter (fun m => negb (is_system m)) messages)%list).
Proof.
  revert instructions input_messages.
  induction messages as [|message rest IH]; intros instructions input_messages.
  - simpl. rewrite app_nil_r. reflexivity.
  - cbn [split_messages existsb filter]. unfold lacks_content at 1.
    fold (is_system message).
    destruct (is_system message) eqn:S; cbn [andb negb orb].
    + destruct (dict_get message "content") as [c|] eqn:C; [|reflexivity].
      cbn [orb]. rewrite IH.
      destruct (existsb lacks_content rest) eqn:X; [reflexivity|].
      rewrite last_system_content_cons, S, C.
      unfold last_system_content.
      destruct (rev (filter is_system rest)) as [|last l] eqn:R; [reflexivity|].
      assert (I : In last (filter is_system rest)).
      { apply in_rev. rewrite R. now left. }
      apply filter_In in I. destruct I as [I Sl].
      destruct (dict_get last "content") as [c'|] eqn:C'; [reflexivity|].
      exfalso.
      assert (existsb lacks_content rest = true).
      { apply existsb_exists. exists last. split; [exact I|].
        unfold lacks_content. now rewrite Sl, C'. }
      congruence.
    + rewrite IH. destruct (existsb lacks_content rest); [reflexivity|].
      rewrite last_system_content_cons, S.
      unfold last_system_content.
      destruct (rev (filter is_system rest)); rewrite <- app_assoc; reflexivity.
Qed.

(** The arguments [prepare] returns, field by field. *)
Lemma prepare_spec (self : t) (messages : list Dict) (tools : option (list Val)) :
  prepare self messages tools
  = if existsb lacks_content messages
    then Raise (mkExc "KeyError" "'content'")
    else
      Return
        (mkParams
           (fst (reasoning_of (model self)))
           true
           (match last_system_content messages with
            | Some c => if truthy c then Some c else None
            | None => None
            end)
           (filter (fun m => negb (is_system m)) messages)
           (match tools with
            | Some ((_ :: _) as tools) =>
                match format_tools_for_response_api tools with
                | [] => None
                | formatted_tools => Some formatted_tools
                end
            | _ => None
            end)
           (if startswith (model self) "o" then None
            else cfg_temperature (config self))
           (cfg_max_tokens (config self))
           (snd (reasoning_of (model self)))).
Proof.
  unfold prepare. rewrite split_messages_spec.
  destruct (existsb lacks_content messages); [reflexivity|].
  cbn [Py.bind app].
  destruct (reasoning_of (model self)) as [m r]. cbn [fst snd].
  destruct (last_system_content messages) as [c|]; reflexivity.
Qed.

(** X8: the preparation fails exactly when some system message has no
    "content" key, with [KeyError('content')]; nothing else in it can
    fail. *)
Theorem X8_prepare_key_error (self : t) (messages : list Dict)
  (tools : option (list Val)) :
  (existsb lacks_content messages = true
   <-> prepare self messages tools = Raise (mkExc "KeyError" "'content'"))
  /\ (existsb lacks_content messages = false
      <-> exists params, prepare self messages tools = Return params).
Proof.
  rewrite prepare_spec. destruct (existsb lacks_content messages).
  - split; split; try discriminate; auto. intros [params H]. discriminate H.
  - split; split; try discriminate; auto. intros _. eexists. reflexivity.
Qed.

(** X9: the input of the call is the messages without the system
    messages, in their order; the instructions are the content of the
    last system message, left out when there is none or when it is
    empty; the call always asks for a stream, and carries the configured
    [max_tokens]. *)
Theorem X9_prepare_messages (self : t) (messages : list Dict)
  (tools : option (list Val)) (params : Params) :
  prepare self messages tools = Return params ->
  p_input params = filter (fun m => negb (is_system m)) messages
  /\ p_instructions params
     = match last_system_content messages with
       | Some c => if truthy c then Some c else None
       | None => None
       end
  /\ p_stream params = true
  /\ p_max_output_tokens params = cfg_max_tokens (config self).
Proof.
  rewrite prepare_spec. destruct (existsb lacks_content messages);
    [discriminate|].
  intros H. injection H as <-. repeat split.
Qed.

(** X10: an o-series model never gets a temperature and always gets a
    reasoning effort, "low", "medium" or "high"; any other model keeps
    its name and the configured temperature and gets no reasoning
    effort. *)
Theorem X10_prepare_o_series (self : t) (messages : list Dict)
  (tools : option (list Val)) (params : Params) :
  prepare self messages tools = Return params ->
  if startswith (model self) "o"
  then p_temperature params = None
       /\ In (p_reasoning params) [Some "low"; Some "medium"; Some "high"]
  else p_temperature params = cfg_temperature (config self)
       /\ p_reasoning params = None
       /\ p_model params = model self.
Proof.
  rewrite prepare_spec. destruct (existsb lacks_content messages);
    [discriminate|].
  intros H. injection H as <-. cbn [p_temperature p_reasoning p_model].
  unfold reasoning_of.
  destruct (startswith (model self) "o"); [|repeat split].
  split; [reflexivity|].
  destruct (endswith (model self) "-low"); [simpl; auto|].
  destruct (endswith (model self) "-medium"); [simpl; auto|].
  destruct (endswith (model self) "-high"); simpl; auto.
Qed.

(** X11: the call carries tools only when some tool is a dict: the tools
    argument is never an empty list, and when present it is the formatted
    tools, all of them dicts. *)
Theorem X11_prepare_tools (self : t) (messages : list Dict)
  (tools : option (list Val)) (params : Params) :
  prepare self messages tools = Return params ->
  match p_tools params with
  | Some formatted =>
      formatted <> []
      /\ forallb is_dict formatted = true
      /\ exists given,
           tools = Some given
           /\ formatted = format_tools_for_response_api given
  | None =>
      match tools with
      | Some given => forallb (fun tool => negb (is_dict tool)) given = true
      | None => True
      end
  end.
Proof.
  rewrite prepare_spec. destruct (existsb lacks_content messages);
    [discriminate|].
  intros H. injection H as <-. cbn [p_tools].
  destruct tools as [[|tool rest]|]; [reflexivity| |exact I].
  pose proof (format_tools_dicts (tool :: rest)) as (D & L & _).
  destruct (format_tools_for_response_api (tool :: rest)) as [|f fs] eqn:F.
  - clear D. cbn [List.length] in L. symmetry in L.
    apply length_zero_iff_nil in L.
    apply forallb_forall. intros x Hx.
    destruct (is_dict x) eqn:Dx; [|reflexivity].
    assert (In x (filter is_dict (tool :: rest))) by (apply filter_In; auto).
    rewrite L in H. destruct H.
  - split; [discriminate|]. split; [exact D|].
    exists (tool :: rest). split; [reflexivity|]. symmetry. exact F.
Qed.

End PrepareFacts.

(** ** The cost of a call *)

(** Rounding, multiplying and dividing keep a float that is not below
    zero (a zero, plus infinity or a positive number) not below zero. *)

Section Sign.
Variables prec emax : Z.

Lemma binary_round_aux_nonneg (m e : Z) (l : location) :
  0 <= m -> SFleb (S754_zero false) (binary_round_aux prec emax false m e l) = true.
Proof.
  intros H. unfold binary_round_aux, shr_fexp.
  destruct (shr_spec m l e (fexp prec emax (Zdigits2 m + e) - e) H) as [M1 _].
  destruct (shr (shr_record_of_loc m l) e _) as [mrs1 e1]. cbn [fst] in M1.
  pose proof (round_nearest_even_ge mrs1) as R.
  assert (G1 : 0 <= shr_m mrs1).
  { rewrite M1. apply Z.div_pos; [exact H|]. apply pow2_pos. lia. }
  set (m2 := round_nearest_even (shr_m mrs1) (loc_of_shr_record mrs1)) in *.
  destruct (shr_spec m2 loc_Exact e1 (fexp prec emax (Zdigits2 m2 + e1) - e1)
              ltac:(lia)) as [M2 _].
  destruct (shr (shr_record_of_loc m2 loc_Exact) e1 _) as [mrs2 e2].
  cbn [fst] in M2.
  assert (G2 : 0 <= shr_m mrs2).
  { rewrite M2. apply Z.div_pos; [lia|]. apply pow2_pos. lia. }
  destruct (shr_m mrs2) as [|p|p]; try lia; [reflexivity|].
  destruct (e2 <=? emax - prec); reflexivity.
Qed.

Lemma binary_round_nonneg (m : positive) (e : Z) :
  SFleb (S754_zero false) (binary_round prec emax false m e) = true.
Proof.
  unfold binary_round. destruct (shl_align m e _) as [mz ez].
  apply binary_round_aux_nonneg. lia.
Qed.

Lemma binary_normalize_nonneg (m e : Z) :
  0 <= m -> SFleb (S754_zero false) (binary_normalize prec emax m e false) = true.
Proof.
  destruct m as [|p|p]; try lia; intros _; [reflexivity|].
  apply binary_round_nonneg.
Qed.

Lemma SFldexp_nonneg (x : spec_float) (e : Z) :
  SFleb (S754_zero false) x = true -> SFleb (S754_zero false) (SFldexp prec emax x e) = true.
Proof.
  destruct x as [s|s| |[] m ex]; try discriminate; intros H; try exact H.
  apply binary_round_nonneg.
Qed.

Lemma SFmul_nonneg (x : spec_float) (m : positive) (e : Z) :
  SFleb (S754_zero false) x = true ->
  SFleb (S754_zero false) (SFmul prec emax x (S754_finite false m e)) = true.
Proof.
  destruct x as [s|[]| |[] mx ex]; try discriminate; intros _;
    try reflexivity.
  cbn [SFmul xorb]. apply binary_round_aux_nonneg. lia.
Qed.

Lemma SFdiv_nonneg (a : Z) (b : positive) :
  0 <= a ->
  SFleb (S754_zero false) (SFdiv prec emax
              (match a with
               | Z0 => S754_zero false
               | Zpos p => S754_finite false p 0
               | Zneg p => S754_finite true p 0
               end)
              (S754_finite false b 0)) = true.
Proof.
  destruct a as [|p|p]; try lia; intros _; [reflexivity|].
  cbn [SFdiv xorb]. unfold SFdiv_core_binary.
  set (m' := match _ - _ - _ with Zpos _ => _ | Z0 => _ | Zneg _ => _ end).
  assert (H : 0 <= m').
  { unfold m'. destruct (_ - _ - _); try lia. apply Z.shiftl_nonneg. lia. }
  pose proof (Z.div_pos m' (Zpos b) H ltac:(lia)) as Q.
  unfold Z.div in Q. destruct (Z.div_eucl m' (Zpos b)) as [q r].
  apply binary_round_aux_nonneg. exact Q.
Qed.

End Sign.

Lemma SF2Prim_nonneg (x : spec_float) :
  SFleb (S754_zero false) x = true -> (0 <=? SF2Prim x)%float = true.
Proof.
  destruct x as [[]|[]| |[] m e]; try discriminate; intros _;
    try reflexivity.
  cbn [SF2Prim]. rewrite leb_spec. change (Prim2SF 0) with (S754_zero false).
  unfold Z.ldexp. rewrite ldshiftexp_spec.
  apply SFldexp_nonneg. rewrite of_uint63_spec.
  apply binary_normalize_nonneg. apply Uint63.to_Z_bounded.
Qed.

Section CostFacts.

Import OpenAIResponseBackend.

Variable rt : Runtime.

(** The cost of a priced model: the two quotients, each times its rate. *)
Lemma calculate_cost_priced (i o : Z) (model : string) (ri ro : float) :
  priced model = Some (ri, ro) ->
  calculate_cost rt i o model
  = (i' <- int_truediv i 1000 ;;
     o' <- int_truediv o 1000 ;;
     Return (i' * ri + o' * ro)%float)%py.
Proof. unfold priced, calculate_cost. intros ->. reflexivity. Qed.

Lemma int_truediv_nonneg (a : Z) (q : float) :
  0 <= a -> int_truediv a 1000 = Return q -> (0 <=? q)%float = true.
Proof.
  unfold int_truediv. cbn [Z.eqb]. intros H.
  destruct (is_infinity _); [discriminate|].
  intros E. injection E as <-.
  apply SF2Prim_nonneg. unfold SF64div, Z2SF at 1.
  exact (SFdiv_nonneg prec emax a 1000 H).
Qed.

Lemma float_mul_nonneg (q rate : float) (m : positive) (e : Z) :
  (0 <=? q)%float = true ->
  Prim2SF rate = S754_finite false m e ->
  (0 <=? q * rate)%float = true.
Proof.
  rewrite !leb_spec, mul_spec. change (Prim2SF 0) with (S754_zero false).
  intros Q ->. apply SFmul_nonneg, Q.
Qed.

(** Every rate of the table is a positive number. *)
Lemma pricing_rates_positive (key : string) (ri ro : float) :
  pricing_get pricing key = Some (ri, ro) ->
  (exists m e, Prim2SF ri = S754_finite false m e)
  /\ (exists m e, Prim2SF ro = S754_finite false m e).
Proof.
  unfold pricing. cbn [pricing_get].
  repeat (destruct (_ =? key)%string;
          [intros E; injection E as <- <-; split; eexists; eexists;
           vm_compute; reflexivity|]).
  discriminate.
Qed.

Lemma calculate_cost_nonneg (i o : Z) (model : string) (cost : float) :
  priced model <> None ->
  0 <= i ->
  0 <= o ->
  calculate_cost rt i o model = Return cost ->
  (0 <=? cost)%float = true.
Proof.
  intros P Hi Ho. destruct (priced model) as [[ri ro]|] eqn:E; [|congruence].
  rewrite (calculate_cost_priced i o model ri ro E).
  destruct (pricing_rates_positive _ ri ro E) as [(mi & ei & Ri) (mo & eo & Ro)].
  destruct (int_truediv i 1000) as [i'|] eqn:Di; [|discriminate].
  destruct (int_truediv o 1000) as [o'|] eqn:Do; [|discriminate].
  cbn [Py.bind]. intros C. injection C as <-.
  pose proof (float_mul_nonneg i' ri mi ei (int_truediv_nonneg i i' Hi Di) Ri) as Xi.
  pose proof (float_mul_nonneg o' ro mo eo (int_truediv_nonneg o o' Ho Do) Ro) as Xo.
  exact (proj2 (float_add_nonneg_ge _ _ Xi Xo)).
Qed.

(** X12: the cost of a priced model, for token counts that are not
    negative, is never negative. *)
Theorem X12_calculate_cost_nonneg (i o : Z) (model : string) (cost : float) :
  priced model <> None ->
  0 <= i ->
  0 <= o ->
  calculate_cost rt i o model = Return cost ->
  (0 <=? cost)%float = true.
Proof. exact (calculate_cost_nonneg i o model cost). Qed.

(** X13: the price of a model of the table does not depend on an effort
    suffix "-low", "-medium" or "-high" added to its name, nor on the
    environment: no variable is read and no warning issued. *)
Theorem X13_calculate_cost_effort_suffix (rt' : Runtime) (key suffix : string)
  (i o : Z) :
  In key (map fst pricing) ->
  In suffix ["-low"; "-medium"; "-high"] ->
  priced key <> None
  /\ priced (key ++ suffix) = priced key
  /\ calculate_cost rt i o (key ++ suffix) = calculate_cost rt' i o key.
Proof.
  intros K S.
  assert (P : priced key <> None /\ priced (key ++ suffix) = priced key).
  { cbn [pricing map fst In] in K. cbn [In] in S.
    repeat (destruct K as [<-|K]; [
      repeat (destruct S as [<-|S]; [split; [discriminate|reflexivity]|]);
      destruct S|]).
    destruct K. }
  destruct P as [N E]. split; [exact N|]. split; [exact E|].
  destruct (priced key) as [[ri ro]|] eqn:Pk; [|congruence].
  rewrite (calculate_cost_priced i o (key ++ suffix) ri ro E).
  unfold priced, calculate_cost in *. rewrite Pk. reflexivity.
Qed.

(** X14: for a model that is not priced, when neither fallback variable
    is set and the warning is only a warning, the cost is the cost of
    "gpt-4o". *)
Theorem X14_calculate_cost_fallback_default (i o : Z) (model : string) :
  priced model = None ->
  getenv rt "FALLBACK_INPUT_RATE" = None ->
  getenv rt "FALLBACK_OUTPUT_RATE" = None ->
  float_of_str rt "0.0025" = Return 0.0025%float ->
  float_of_str rt "0.01" = Return 0.01%float ->
  (forall message, warnings_warn rt message = Return tt) ->
  calculate_cost rt i o model = calculate_cost rt i o "gpt-4o".
Proof.
  intros P Ei Eo Fi Fo W.
  rewrite (calculate_cost_priced i o "gpt-4o" 0.0025%float 0.01%float eq_refl).
  unfold priced in P. unfold calculate_cost. rewrite P.
  unfold getenv_default. rewrite Ei, Eo, Fi, Fo. cbn [Py.bind].
  rewrite W. reflexivity.
Qed.

End CostFacts.

(** ** More on the streaming generator *)

Section StreamingMore.

Import OpenAIResponseBackend.

Variable rt : Runtime.

Lemma string_app_nil_r (s : string) : (s ++ "")%string = s.
Proof. induction s as [|c s IH]; simpl; [reflexivity|]. now rewrite IH. Qed.

Lemma content_of_app (out out' : list StreamChunk.t) :
  content_of (out ++ out') = (content_of out ++ content_of out')%string.
Proof.
  induction out as [|c out IH]; [reflexivity|].
  cbn [app content_of]. rewrite IH, string_app_assoc. reflexivity.
Qed.

Lemma completed_no_text (chunk : Event) :
  is_completed chunk = true -> text_delta_of chunk = "".
Proof.
  intros H. apply is_completed_type in H. unfold text_delta_of. rewrite H.
  destruct (ev_delta chunk); reflexivity.
Qed.

(** An event that is not a completion event: what the loop yields for it
    does not depend on [self], which it leaves alone. *)
Lemma on_chunk_other_shape (chunk : Event) (locals : Locals) :
  is_completed chunk = false ->
  exists out locals',
    (forall self, on_chunk rt chunk locals self = (out, self, Return locals'))
    /\ forallb well_formed out = true
    /\ forallb is_payload out = true
    /\ content_of out = text_delta_of chunk
    /\ input_tokens locals' = input_tokens locals
    /\ output_tokens locals' = output_tokens locals
    /\ (is_ignored chunk = true -> out = [] /\ locals' = locals).
Proof.
  unfold is_completed, on_chunk, is_ignored, text_delta_of. intros H.
  destruct (ev_type chunk) as [ty|].
  - destruct (ty =? "response.output_text.delta")%string.
    + destruct (ev_delta chunk) as [delta|].
      * destruct (delta =? "")%string eqn:D.
        -- apply String.eqb_eq in D. subst delta.
           exists [], locals. repeat split; discriminate.
        -- eexists _, _. split; [intros self; reflexivity|].
           split; [unfold well_formed; simpl; now rewrite D|].
           split; [reflexivity|].
           split; [cbn; apply string_app_nil_r|].
           repeat split; discriminate.
      * exists [], locals. repeat split; discriminate.
    + destruct (ty =? "response.function_call_output.delta")%string.
      * eexists _, _. split; [intros self; reflexivity|].
        repeat split; try discriminate.
        cbn. destruct (ev_delta chunk); reflexivity.
      * rewrite H. exists [], locals. repeat split.
        destruct (ev_delta chunk); reflexivity.
  - exists [], locals. repeat split.
Qed.

Lemma set_token_usage_self (self : t) :
  set_token_usage self (token_usage self) = self.
Proof. destruct self. reflexivity. Qed.

(** The loop on any accumulator: the same chunks, the same end, and a
    fixed sequence of [add_usage] calls, one for each [done] chunk. *)
Lemma async_for_accounting (response : AsyncStream) (locals : Locals) (self : t) :
  exists out calls r,
    List.length calls = count_type "done" out
    /\ forall u,
         async_for rt response locals (set_token_usage self u)
         = (out, set_token_usage self (TokenUsage.replay calls u), r).
Proof.
  revert locals.
  induction response as [|chunk rest IH|e]; intros locals.
  - exists [], [], (Return tt). split; [reflexivity|]. intros u. reflexivity.
  - destruct (is_completed chunk) eqn:Hc.
    + destruct (calculate_cost rt (input_tokens (read_usage chunk locals))
                  (output_tokens (read_usage chunk locals)) (model self))
        as [cost|e] eqn:C.
      * destruct (IH (read_usage chunk locals)) as (out & calls & r & L & E).
        exists (done_chunk :: out),
          ((input_tokens (read_usage chunk locals),
            output_tokens (read_usage chunk locals), cost) :: calls), r.
        split.
        -- unfold count_type in *. cbn [filter StreamChunk.is_type done_chunk
             StreamChunk.type String.eqb Ascii.eqb Bool.eqb List.length].
           simpl. now rewrite L.
        -- intros u. rewrite async_for_next.
           rewrite (on_chunk_completed rt chunk locals _ Hc). cbv zeta.
           cbn [model set_token_usage token_usage]. rewrite C.
           change (set_token_usage (set_token_usage self u) ?v)
             with (set_token_usage self v).
           rewrite E. reflexivity.
      * exists [], [], (Raise e). split; [reflexivity|]. intros u.
        rewrite async_for_next, (on_chunk_completed rt chunk locals _ Hc).
        cbv zeta. cbn [model set_token_usage]. rewrite C. reflexivity.
    + destruct (on_chunk_other_shape chunk locals Hc)
        as (out1 & locals1 & E1 & _ & P1 & _).
      destruct (IH locals1) as (out & calls & r & L & E).
      exists (out1 ++ out)%list, calls, r. split.
      * rewrite count_type_app. unfold count_type at 1.
        rewrite (payload_not "done" out1 eq_refl eq_refl P1). exact L.
      * intros u. rewrite async_for_next, E1, E. reflexivity.
  - exists [], [], (Raise e). split; [reflexivity|]. intros u. reflexivity.
Qed.

(** A run on any accumulator. *)
Lemma stream_accounting (messages : list Dict) (tools : option (list Val))
  (self : t) :
  exists calls,
    List.length calls
    = count_type "done" (chunks (stream_with_tools rt messages tools self))
    /\ forall u,
         chunks (stream_with_tools rt messages tools (set_token_usage self u))
         = chunks (stream_with_tools rt messages tools self)
         /\ token_usage
              (after (stream_with_tools rt messages tools (set_token_usage self u)))
            = TokenUsage.replay calls u.
Proof.
  assert (G : exists out calls,
             List.length calls = count_type "done" out
             /\ forall u,
                  chunks (stream_with_tools rt messages tools (set_token_usage self u))
                  = out
                  /\ token_usage
                       (after (stream_with_tools rt messages tools
                                 (set_token_usage self u)))
                     = TokenUsage.replay calls u).
  { destruct (create_response self messages tools) as [response|e] eqn:R.
    - destruct (async_for_accounting response (mkLocals "" 0 0) self)
        as (out & calls & r & L & E).
      destruct r as [[]|e].
      + exists out, calls. split; [exact L|]. intros u.
        rewrite stream_with_tools_body, stream_body_response. cbv zeta.
        change (create_response (set_token_usage self u) messages tools)
          with (create_response self messages tools).
        rewrite R, E. split; reflexivity.
      + exists (out ++ [error_chunk e])%list, calls. split.
        * rewrite count_type_app, L. cbn. lia.
        * intros u.
          rewrite stream_with_tools_body, stream_body_response. cbv zeta.
          change (create_response (set_token_usage self u) messages tools)
            with (create_response self messages tools).
          rewrite R, E. split; reflexivity.
    - exists [error_chunk e], []. split; [reflexivity|]. intros u.
      rewrite stream_with_tools_body, stream_body_response. cbv zeta.
      change (create_response (set_token_usage self u) messages tools)
        with (create_response self messages tools).
      rewrite R. split; reflexivity. }
  destruct G as (out & calls & L & E).
  exists calls.
  pose proof (E (token_usage self)) as [E0 _].
  rewrite set_token_usage_self in E0. rewrite E0.
  split; [exact L|]. intros u. exact (E u).
Qed.

(** X15: what a run yields does not depend on the accumulator it starts
    from, and the run changes the accumulator by a fixed sequence of
    [add_usage] calls, one for each [done] chunk it yields. *)
Theorem X15_stream_accounting (messages : list Dict) (tools : option (list Val))
  (self : t) :
  exists calls,
    List.length calls
    = count_type "done" (chunks (stream_with_tools rt messages tools self))
    /\ forall u,
         chunks (stream_with_tools rt messages tools (set_token_usage self u))
         = chunks (stream_with_tools rt messages tools self)
         /\ token_usage
              (after (stream_with_tools rt messages tools (set_token_usage self u)))
            = TokenUsage.replay calls u.
Proof. exact (stream_accounting messages tools self). Qed.

(** X28: a run after [reset_token_usage] yields the chunks it would
    have yielded without the reset, and [get_token_usage] then holds what
    the run alone added: the counts the run reaches without the reset,
    less the counts it started from. *)
Theorem X28_reset_then_run (messages : list Dict) (tools : option (list Val))
  (self : t) :
  let run := stream_with_tools rt messages tools in
  let usage := get_token_usage (after (run self)) in
  let usage' := get_token_usage (after (run (reset_token_usage rt self))) in
  chunks (run (reset_token_usage rt self)) = chunks (run self)
  /\ TokenUsage.input_tokens usage'
     = TokenUsage.input_tokens usage
       - TokenUsage.input_tokens (get_token_usage self)
  /\ TokenUsage.output_tokens usage'
     = TokenUsage.output_tokens usage
       - TokenUsage.output_tokens (get_token_usage self)
  /\ TokenUsage.get_total_tokens usage'
     = TokenUsage.get_total_tokens usage
       - TokenUsage.get_total_tokens (get_token_usage self).
Proof.
  cbv zeta. unfold get_token_usage, reset_token_usage.
  destruct (stream_accounting messages tools self) as (calls & _ & E).
  destruct (E (TokenUsage.new (time_time rt))) as [C U].
  destruct (E (token_usage self)) as [_ U0].
  rewrite set_token_usage_self in U0.
  rewrite C, U, U0. split; [reflexivity|].
  pose proof (replay_totals calls (TokenUsage.new (time_time rt))) as T.
  pose proof (replay_totals calls (token_usage self)) as T0.
  unfold TokenUsage.totals in T, T0.
  injection T as Ti To _. injection T0 as Ti0 To0 _.
  unfold TokenUsage.get_total_tokens.
  rewrite Ti, To, Ti0, To0. cbn. lia.
Qed.

Lemma async_for_well_formed (response : AsyncStream) (locals : Locals)
  (self : t) :
  forallb well_formed (chunks (async_for rt response locals self)) = true.
Proof.
  revert locals self.
  induction response as [|chunk rest IH|e]; intros locals self;
    [reflexivity| |reflexivity].
  rewrite async_for_next.
  destruct (is_completed chunk) eqn:Hc.
  - rewrite (on_chunk_completed rt chunk locals self Hc).
    destruct (calculate_cost rt _ _ _) as [cost|e]; [|reflexivity].
    specialize (IH (read_usage chunk locals)
      (set_token_usage self
         (TokenUsage.add_usage (token_usage self)
            (input_tokens (read_usage chunk locals))
            (output_tokens (read_usage chunk locals)) cost))).
    destruct (async_for rt rest _ _) as [[o s] r]. exact IH.
  - destruct (on_chunk_other_shape chunk locals Hc)
      as (out1 & locals1 & E1 & W1 & _).
    rewrite E1. specialize (IH locals1 self).
    destruct (async_for rt rest locals1 self) as [[o s] r].
    unfold chunks in *. simpl in *. rewrite forallb_app, W1, IH. reflexivity.
Qed.

Lemma stream_chunks_well_formed (messages : list Dict)
  (tools : option (list Val)) (self : t) :
  forallb well_formed (chunks (stream_with_tools rt messages tools self)) = true.
Proof.
  rewrite stream_with_tools_body, stream_body_response. cbv zeta.
  destruct (create_response self messages tools) as [response|e];
    [|reflexivity].
  pose proof (async_for_well_formed response (mkLocals "" 0 0) self) as W.
  destruct (async_for rt response _ self) as [[o s] [[]|e]];
    unfold chunks, outcome in *; simpl in *; [exact W|].
  rewrite forallb_app, W. reflexivity.
Qed.

(** X16: every chunk [stream_with_tools] yields has "openai" as source
    and one of the four types; a [content] chunk always carries text that
    is not empty, a [done] chunk the status "completed", an [error] chunk
    a message. *)
Theorem X16_stream_chunks_well_formed (messages : list Dict)
  (tools : option (list Val)) (self : t) :
  forallb well_formed (chunks (stream_with_tools rt messages tools self)) = true.
Proof. exact (stream_chunks_well_formed messages tools self). Qed.

(** The loop never lowers a total when the model is priced and the usage
    counts are not negative. *)
Lemma async_for_monotone (response : AsyncStream) (locals : Locals) (self : t) :
  priced (model self) <> None ->
  forallb nonneg_usage (delivered response) = true ->
  0 <= input_tokens locals ->
  0 <= output_tokens locals ->
  (0 <=? TokenUsage.estimated_cost (token_usage self))%float = true ->
  let usage' := token_usage (after (async_for rt response locals self)) in
  TokenUsage.input_tokens (token_usage self) <= TokenUsage.input_tokens usage'
  /\ TokenUsage.output_tokens (token_usage self) <= TokenUsage.output_tokens usage'
  /\ (TokenUsage.estimated_cost (token_usage self)
      <=? TokenUsage.estimated_cost usage')%float = true.
Proof.
  intros P. revert locals self P.
  induction response as [|chunk rest IH|e]; intros locals self P N Hi Ho X;
    cbv zeta.
  - cbn. split; [lia|]. split; [lia|]. apply float_leb_nonneg_refl, X.
  - cbn [delivered forallb] in N. apply andb_true_iff in N. destruct N as [Nc N].
    rewrite async_for_next.
    destruct (is_completed chunk) eqn:Hc.
    + rewrite (on_chunk_completed rt chunk locals self Hc). cbv zeta.
      assert (U : 0 <= input_tokens (read_usage chunk locals)
                  /\ 0 <= output_tokens (read_usage chunk locals)).
      { unfold read_usage, nonneg_usage in *.
        destruct (ev_usage chunk); [|auto].
        apply andb_true_iff in Nc. destruct Nc as [A B].
        apply Z.leb_le in A, B. auto. }
      destruct U as [Ui Uo].
      destruct (calculate_cost rt _ _ _) as [cost|e] eqn:C.
      * pose proof (calculate_cost_nonneg rt _ _ _ cost P Ui Uo C) as Xc.
        destruct (float_add_nonneg_ge _ _ X Xc) as [M Z0].
        specialize (IH (read_usage chunk locals)
          (set_token_usage self
             (TokenUsage.add_usage (token_usage self)
                (input_tokens (read_usage chunk locals))
                (output_tokens (read_usage chunk locals)) cost))
          P N Ui Uo Z0).
        cbv zeta in IH.
        destruct (async_for rt rest _ _) as [[o s] r].
        unfold after in *.
        cbn [fst snd token_usage set_token_usage TokenUsage.add_usage
               TokenUsage.input_tokens TokenUsage.output_tokens
               TokenUsage.estimated_cost] in *.
        destruct IH as (I1 & O1 & C1).
        split; [lia|]. split; [lia|].
        exact (float_leb_nonneg_trans _ _ _ X M C1).
      * cbn. split; [lia|]. split; [lia|]. apply float_leb_nonneg_refl, X.
    + destruct (on_chunk_other_shape chunk locals Hc)
        as (out1 & locals1 & E1 & _ & _ & _ & I1 & O1 & _).
      rewrite E1. specialize (IH locals1 self P N ltac:(lia) ltac:(lia) X).
      cbv zeta in IH.
      destruct (async_for rt rest locals1 self) as [[o s] r]. exact IH.
  - cbn. split; [lia|]. split; [lia|]. apply float_leb_nonneg_refl, X.
Qed.

(** X17: when the model is priced, the accumulated cost is not negative
    and no completion event of the response reports a negative count, a
    run lowers none of the three totals of the accumulator. *)
Theorem X17_stream_never_lowers_usage (messages : list Dict)
  (tools : option (list Val)) (self : t) :
  priced (model self) <> None ->
  (0 <=? TokenUsage.estimated_cost (token_usage self))%float = true ->
  (forall response,
     create_response self messages tools = Return response ->
     forallb nonneg_usage (delivered response) = true) ->
  let usage' := token_usage (after (stream_with_tools rt messages tools self)) in
  TokenUsage.input_tokens (token_usage self) <= TokenUsage.input_tokens usage'
  /\ TokenUsage.output_tokens (token_usage self) <= TokenUsage.output_tokens usage'
  /\ (TokenUsage.estimated_cost (token_usage self)
      <=? TokenUsage.estimated_cost usage')%float = true.
Proof.
  intros P X N. cbv zeta.
  rewrite stream_with_tools_body, stream_body_response. cbv zeta.
  destruct (create_response self messages tools) as [response|e] eqn:R.
  - pose proof (async_for_monotone response (mkLocals "" 0 0) self P
                  (N response eq_refl) ltac:(cbn; lia) ltac:(cbn; lia) X) as M.
    cbv zeta in M.
    destruct (async_for rt response _ self) as [[o s] [[]|e]]; exact M.
  - cbn. split; [lia|]. split; [lia|]. apply float_leb_nonneg_refl, X.
Qed.

Lemma async_for_text (response : AsyncStream) (locals : Locals) (self : t) :
  (exists rest,
     text_of (delivered response)
     = (content_of (chunks (async_for rt response locals self)) ++ rest)%string)
  /\ (outcome (async_for rt response locals self) = Return tt ->
      content_of (chunks (async_for rt response locals self))
      = text_of (delivered response)).
Proof.
  revert locals self.
  induction response as [|chunk rest IH|e]; intros locals self.
  - split; [exists ""|]; reflexivity.
  - rewrite async_for_next. cbn [delivered text_of].
    destruct (is_completed chunk) eqn:Hc.
    + rewrite (on_chunk_completed rt chunk locals self Hc). cbv zeta.
      rewrite (completed_no_text chunk Hc).
      destruct (calculate_cost rt _ _ _) as [cost|e].
      * specialize (IH (read_usage chunk locals)
          (set_token_usage self
             (TokenUsage.add_usage (token_usage self)
                (input_tokens (read_usage chunk locals))
                (output_tokens (read_usage chunk locals)) cost))).
        destruct (async_for rt rest _ _) as [[o s] r]. exact IH.
      * split; [eexists; reflexivity|]. discriminate.
    + destruct (on_chunk_other_shape chunk locals Hc)
        as (out1 & locals1 & E1 & _ & _ & T1 & _).
      rewrite E1. specialize (IH locals1 self).
      destruct (async_for rt rest locals1 self) as [[o s] r].
      unfold chunks, outcome in *. cbn [fst snd] in *.
      rewrite content_of_app, T1. destruct IH as [[more E] F]. split.
      * exists more. rewrite E, string_app_assoc. reflexivity.
      * intros H. rewrite (F H). reflexivity.
  - split; [exists ""; reflexivity|]. discriminate.
Qed.

(** X18: the text of the [content] chunks, put together, is the
    beginning of the text of the delta events of the response, and all of
    it when the run ends without a failure. *)
Theorem X18_stream_text (messages : list Dict) (tools : option (list Val))
  (self : t) (response : AsyncStream) :
  create_response self messages tools = Return response ->
  let run := stream_with_tools rt messages tools self in
  (exists rest,
     text_of (delivered response) = (content_of (chunks run) ++ rest)%string)
  /\ (outcome (stream_body rt messages tools self) = Return tt ->
      content_of (chunks run) = text_of (delivered response)).
Proof.
  intros R. cbv zeta.
  rewrite stream_with_tools_body, stream_body_response, R. cbv zeta.
  destruct (async_for_text response (mkLocals "" 0 0) self) as [[rest E] F].
  destruct (async_for rt response _ self) as [[o s] [[]|e]];
    unfold chunks, outcome in *; cbn [fst snd] in *.
  - split; [exists rest; exact E|exact F].
  - split; [|discriminate]. exists rest.
    rewrite content_of_app. cbn [content_of error_chunk StreamChunk.is_type
      StreamChunk.type String.eqb Ascii.eqb Bool.eqb].
    cbn. rewrite string_app_nil_r. exact E.
Qed.

(** X19: an event without a type, or of a type the loop does not know,
    changes nothing: the loop runs as if the event were not in the
    response. *)
Theorem X19_stream_ignores_unknown_events (events : list Event) (chunk : Event)
  (rest : AsyncStream) (locals : Locals) (self : t) :
  is_ignored chunk = true ->
  async_for rt (feed events (Next chunk rest)) locals self
  = async_for rt (feed events rest) locals self.
Proof.
  intros G.
  assert (Hc : is_completed chunk = false).
  { unfold is_ignored, is_completed in *. destruct (ev_type chunk) as [ty|];
      [|reflexivity].
    apply negb_true_iff in G. apply orb_false_iff in G. tauto. }
  revert locals self. induction events as [|first events IH]; intros locals self.
  - cbn [feed fold_right]. rewrite async_for_next.
    destruct (on_chunk_other_shape chunk locals Hc)
      as (out1 & locals1 & E1 & _ & _ & _ & _ & _ & Ig).
    destruct (Ig G) as [-> ->]. rewrite E1.
    destruct (async_for rt rest locals self) as [[o s] r]. reflexivity.
  - change (feed (first :: events) (Next chunk rest))
      with (Next first (feed events (Next chunk rest))).
    change (feed (first :: events) rest) with (Next first (feed events rest)).
    rewrite !async_for_next.
    destruct (on_chunk rt first locals self) as [[o s] [locals'|e]];
      [|reflexivity].
    rewrite IH. reflexivity.
Qed.

(** An event that is no completion event yields its payload chunk and
    leaves the backend and the token counts of the loop alone. *)
Lemma on_chunk_payload (chunk : Event) (locals : Locals) :
  is_completed chunk = false ->
  exists locals',
    (forall self,
       on_chunk rt chunk locals self = (payload_chunk chunk, self, Return locals'))
    /\ input_tokens locals' = input_tokens locals
    /\ output_tokens locals' = output_tokens locals.
Proof.
  unfold is_completed, on_chunk, payload_chunk. intros H.
  destruct (ev_type chunk) as [ty|].
  - destruct (ty =? "response.output_text.delta")%string.
    + destruct (ev_delta chunk) as [delta|].
      * destruct (delta =? "")%string.
        -- exists locals. repeat split.
        -- eexists. repeat split.
      * exists locals. repeat split.
    + destruct (ty =? "response.function_call_output.delta")%string.
      * exists locals. repeat split.
      * rewrite H. exists locals. repeat split.
  - exists locals. repeat split.
Qed.

(** The events before the first completion event yield their payload
    chunks, whatever follows them. *)
Lemma async_for_payload (events : list Event) (locals : Locals) :
  existsb is_completed events = false ->
  exists locals',
    input_tokens locals' = input_tokens locals
    /\ output_tokens locals' = output_tokens locals
    /\ forall rest self,
         async_for rt (feed events rest) locals self
         = let '(out', self', r) := async_for rt rest locals' self in
           ((payload_chunks events ++ out')%list, self', r).
Proof.
  revert locals.
  induction events as [|chunk events IH]; intros locals H.
  - exists locals. repeat split. intros rest self. simpl.
    destruct (async_for rt rest locals self) as [[o s] r]. reflexivity.
  - simpl in H. apply orb_false_iff in H. destruct H as [Hc H].
    destruct (on_chunk_payload chunk locals Hc) as (locals1 & E1 & I1 & O1).
    destruct (IH locals1 H) as (locals2 & I2 & O2 & E2).
    exists locals2. split; [congruence|]. split; [congruence|].
    intros rest self.
    change (feed (chunk :: events) rest) with (Next chunk (feed events rest)).
    rewrite async_for_next, E1, E2.
    destruct (async_for rt rest locals2 self) as [[o s] r].
    unfold payload_chunks. simpl. rewrite app_assoc. reflexivity.
Qed.

(** X20: when the cost of the first completion event cannot be computed,
    the run ends there.  It yields the [content] and [tool_calls] chunks
    of the events before that event, in their order, then the [error]
    chunk of the failure, and no [done] chunk; the backend is as it was;
    and nothing that follows the completion event in the response is
    read: the loop runs the same whatever follows it. *)
Theorem X20_stream_cost_failure (messages : list Dict) (tools : option (list Val))
  (self : t) (events : list Event) (chunk : Event) (rest : AsyncStream)
  (e : Exc) :
  create_response self messages tools = Return (feed events (Next chunk rest)) ->
  existsb is_completed events = false ->
  is_completed chunk = true ->
  calculate_cost rt (fst (usage_of chunk)) (snd (usage_of chunk)) (model self)
  = Raise e ->
  stream_with_tools rt messages tools self
  = ((payload_chunks events ++ [error_chunk e])%list, self, Return tt)
  /\ forall rest',
       async_for rt (feed events (Next chunk rest')) (mkLocals "" 0 0) self
       = (payload_chunks events, self, Raise e).
Proof.
  intros Hr He Hc Hcost.
  destruct (async_for_payload events (mkLocals "" 0 0) He)
    as (locals & I & O & E).
  assert (U : input_tokens (read_usage chunk locals) = fst (usage_of chunk)
              /\ output_tokens (read_usage chunk locals) = snd (usage_of chunk)).
  { unfold read_usage, usage_of. destruct (ev_usage chunk); simpl; auto. }
  destruct U as [Ui Uo].
  assert (L : forall rest',
             async_for rt (feed events (Next chunk rest')) (mkLocals "" 0 0) self
             = (payload_chunks events, self, Raise e)).
  { intros rest'. rewrite E.
    rewrite async_for_next, (on_chunk_completed rt chunk locals self Hc).
    cbv zeta. rewrite Ui, Uo, Hcost. cbn. rewrite app_nil_r. reflexivity. }
  split; [|exact L].
  rewrite stream_with_tools_body, stream_body_response, Hr, (L rest).
  reflexivity.
Qed.

End StreamingMore.

(** ** The factory and the detection of the provider *)

Section FactoryFacts.

Import OpenAIResponseBackend.

Variable rt : Runtime.

(** X21: a backend the factory returns has the model that was asked for,
    an accumulator at zero, and a client built from a key that is not
    empty: the key of the arguments when it is not empty, the key of
    [OPENAI_API_KEY] otherwise. *)
Theorem X21_create_backend_result (provider model : string) (kwargs : Config)
  (backend : t) :
  create_backend rt provider model kwargs = Return backend ->
  OpenAIResponseBackend.model backend = model
  /\ cfg_model (config backend) = Some model
  /\ TokenUsage.totals (token_usage backend) = (0, 0, 0%float)
  /\ exists ctor key,
       AsyncOpenAI rt = Some ctor
       /\ client backend = ctor key
       /\ key <> ""
       /\ match cfg_api_key kwargs with
          | Some given =>
              if (given =? "")%string
              then getenv rt "OPENAI_API_KEY" = Some key
              else key = given
          | None => getenv rt "OPENAI_API_KEY" = Some key
          end.
Proof.
  unfold create_backend, init, api_key_val. cbn [cfg_model cfg_api_key].
  destruct (lower provider =? "openai")%string; [|discriminate].
  destruct (AsyncOpenAI rt) as [ctor|]; [|discriminate].
  unfold str_or.
  destruct (cfg_api_key kwargs) as [given|].
  - destruct (String.eqb_spec given "") as [G|G].
    + destruct (getenv rt "OPENAI_API_KEY") as [key|]; [|discriminate].
      destruct (String.eqb_spec key "") as [K|K]; [discriminate|].
      intros E. injection E as <-. cbn. repeat split.
      exists ctor, key. repeat split. exact K.
    + destruct (String.eqb_spec given "") as [K|K]; [contradiction|].
      intros E. injection E as <-. cbn. repeat split.
      exists ctor, given. repeat split. exact K.
  - destruct (getenv rt "OPENAI_API_KEY") as [key|]; [|discriminate].
    destruct (String.eqb_spec key "") as [K|K]; [discriminate|].
    intros E. injection E as <-. cbn. repeat split.
    exists ctor, key. repeat split. exact K.
Qed.

(** X22: the detector names one of four providers, and the factory
    refuses three of them: whenever the provider detected for a model is
    not "openai", [create_backend] raises [ValueError] for it. *)
Theorem X22_detected_provider_unsupported (model model' : string)
  (kwargs : Config) :
  let provider := get_provider_from_model model in
  In provider ["anthropic"; "google"; "openai"; "xai"]
  /\ (provider <> "openai" ->
      create_backend rt provider model' kwargs
      = Raise (mkExc "ValueError" ("Unsupported provider: " ++ provider))).
Proof.
  cbv zeta. unfold get_provider_from_model, any_in. cbn [existsb].
  destruct (str_in "claude" (lower model) || false);
    [split; [cbn; tauto|reflexivity]|].
  destruct (str_in "gemini" (lower model) || false);
    [split; [cbn; tauto|reflexivity]|].
  destruct (_ || _); [split; [cbn; tauto|congruence]|].
  destruct (str_in "grok" (lower model) || false);
    [split; [cbn; tauto|reflexivity]|split; [cbn; tauto|congruence]].
Qed.

(** X23: every model of the pricing table, with or without an effort
    suffix, is detected as "openai". *)
Theorem X23_priced_models_are_openai (key suffix : string) :
  In key (map fst pricing) ->
  In suffix [""; "-low"; "-medium"; "-high"] ->
  get_provider_from_model (key ++ suffix) = "openai".
Proof.
  intros K S. cbn [pricing map fst In] in K. cbn [In] in S.
  repeat (destruct K as [<-|K]; [
    repeat (destruct S as [<-|S]; [reflexivity|]); destruct S|]).
  destruct K.
Qed.

End FactoryFacts.

(** ** The loops of the tests *)

Section TestLoopFacts.

Import TestTimeout.

Lemma until_done_idempotent (stream : list StreamChunk.t) :
  until_done (until_done stream) = until_done stream.
Proof.
  induction stream as [|chunk rest IH]; [reflexivity|].
  cbn [until_done]. destruct (StreamChunk.is_type "done" chunk) eqn:D;
    [reflexivity|].
  cbn [until_done]. rewrite D, IH. reflexivity.
Qed.

Lemma agent_loop_until_done (stream : list StreamChunk.t) (st : Loop) :
  agent_loop stream st = agent_loop (until_done stream) st.
Proof.
  revert st. induction stream as [|chunk rest IH]; intros st; [reflexivity|].
  cbn [until_done]. destruct (StreamChunk.is_type "done" chunk) eqn:D.
  - cbn [agent_loop]. rewrite D.
    unfold StreamChunk.is_type in *. apply String.eqb_eq in D. rewrite D.
    reflexivity.
  - cbn [agent_loop]. rewrite D.
    destruct (StreamChunk.is_type "content" chunk);
      [destruct (StreamChunk.content chunk); [apply IH|reflexivity]|].
    destruct (StreamChunk.is_type "error" chunk);
      [destruct (StreamChunk.error chunk); [apply IH|reflexivity]|].
    apply IH.
Qed.

(** X24: the loop of [test_agent_timeout] stops at the first [done]
    chunk: whatever follows it in the stream is never read. *)
Theorem X24_agent_loop_stops_at_done (before after : list StreamChunk.t)
  (d : StreamChunk.t) :
  StreamChunk.is_type "done" d = true ->
  test_agent_timeout (before ++ d :: after) = test_agent_timeout (before ++ [d]).
Proof.
  intros D. unfold test_agent_timeout.
  rewrite (agent_loop_until_done (before ++ d :: after)).
  rewrite (agent_loop_until_done (before ++ [d])).
  f_equal. induction before as [|c before IH]; cbn [app until_done].
  - rewrite D. reflexivity.
  - rewrite IH. reflexivity.
Qed.

(** The loop on a stream without a [done] chunk. *)
Lemma agent_loop_spec (stream : list StreamChunk.t) (st : Loop) :
  until_done stream = stream ->
  if forallb readable stream
  then agent_loop stream st
       = Return
           (mkLoop
              (response_content st ++ OpenAIResponseBackend.content_of stream)
              (existsb signals_timeout stream || timeout_detected st))
  else exists e, agent_loop stream st = Raise e.
Proof.
  revert st. induction stream as [|chunk rest IH]; intros st U.
  - cbn. rewrite string_app_nil_r. destruct st. reflexivity.
  - cbn [until_done] in U.
    destruct (StreamChunk.is_type "done" chunk) eqn:D; [discriminate|].
    injection U as U. specialize (IH) .
    cbn [forallb agent_loop existsb OpenAIResponseBackend.content_of].
    unfold readable at 1, signals_timeout at 1.
    destruct (StreamChunk.is_type "content" chunk) eqn:C.
    + destruct (StreamChunk.content chunk) as [content|].
      * specialize (IH (mkLoop (response_content st ++ content)
                          (if str_in "time limit exceeded" content then true
                           else timeout_detected st)) U).
        cbn [andb]. destruct (forallb readable rest); [|exact IH].
        rewrite IH. cbn [response_content timeout_detected].
        rewrite string_app_assoc.
        destruct (str_in "time limit exceeded" content);
          rewrite ?orb_true_r; reflexivity.
      * cbn [andb]. eexists. reflexivity.
    + destruct (StreamChunk.is_type "error" chunk) eqn:E.
      * destruct (StreamChunk.error chunk) as [error|].
        -- specialize (IH (mkLoop (response_content st)
                             (if str_in "time limit exceeded" (lower error)
                              then true else timeout_detected st)) U).
           cbn [andb]. destruct (forallb readable rest); [|exact IH].
           rewrite IH. cbn [response_content timeout_detected append].
           destruct (str_in "time limit exceeded" (lower error));
             rewrite ?orb_true_r; reflexivity.
        -- cbn [andb]. eexists. reflexivity.
      * rewrite D. specialize (IH st U). cbn [andb orb append].
        exact IH.
Qed.

(** X25: [test_agent_timeout] fails exactly when, before the first
    [done] chunk, a [content] chunk has no text or an [error] chunk has
    no message; otherwise it collects the text of the [content] chunks
    before the first [done] chunk, and detects a timeout exactly when one
    of them contains "time limit exceeded" or the message of an [error]
    chunk contains it in any case. *)
Theorem X25_agent_loop_result (stream : list StreamChunk.t) :
  if forallb readable (until_done stream)
  then test_agent_timeout stream
       = Return
           (mkLoop (OpenAIResponseBackend.content_of (until_done stream))
              (existsb signals_timeout (until_done stream)))
  else exists e, test_agent_timeout stream = Raise e.
Proof.
  unfold test_agent_timeout. rewrite agent_loop_until_done.
  pose proof (agent_loop_spec (until_done stream) (mkLoop "" false)
                (until_done_idempotent stream)) as H.
  destruct (forallb readable (until_done stream)); [|exact H].
  rewrite H. cbn [response_content timeout_detected append].
  rewrite orb_false_r. reflexivity.
Qed.

Lemma well_formed_readable (c : StreamChunk.t) :
  OpenAIResponseBackend.well_formed c = true -> readable c = true.
Proof.
  unfold OpenAIResponseBackend.well_formed, readable.
  destruct (StreamChunk.source c); [|discriminate].
  intros H. apply andb_true_iff in H. destruct H as [_ H].
  destruct (StreamChunk.is_type "content" c).
  - destruct (StreamChunk.content c); [reflexivity|discriminate].
  - destruct (StreamChunk.is_type "tool_calls" c) eqn:T.
    + unfold StreamChunk.is_type in *. apply String.eqb_eq in T. rewrite T.
      reflexivity.
    + destruct (StreamChunk.is_type "done" c) eqn:D.
      * unfold StreamChunk.is_type in *. apply String.eqb_eq in D. rewrite D.
        reflexivity.
      * destruct (StreamChunk.is_type "error" c); [|reflexivity].
        destruct (StreamChunk.error c); [reflexivity|discriminate].
Qed.

Lemma until_done_forallb (f : StreamChunk.t -> bool) (stream : list StreamChunk.t) :
  forallb f stream = true -> forallb f (until_done stream) = true.
Proof.
  induction stream as [|c rest IH]; [reflexivity|].
  cbn [forallb until_done]. intros H. apply andb_true_iff in H.
  destruct H as [Hc H].
  destruct (StreamChunk.is_type "done" c); [reflexivity|].
  cbn [forallb]. rewrite Hc, (IH H). reflexivity.
Qed.

(** X26: the loop of [test_agent_timeout] can read every stream that
    [stream_with_tools] yields: it never fails on one, and it collects
    the text of the [content] chunks before the first [done] chunk. *)
Theorem X26_agent_loop_reads_backend (rt : Runtime) (messages : list Dict)
  (tools : option (list Val)) (self : OpenAIResponseBackend.t) :
  let out :=
    OpenAIResponseBackend.chunks
      (OpenAIResponseBackend.stream_with_tools rt messages tools self) in
  exists st,
    test_agent_timeout out = Return st
    /\ response_content st = OpenAIResponseBackend.content_of (until_done out).
Proof.
  cbv zeta.
  pose proof (stream_chunks_well_formed rt messages tools self) as W.
  set (out := OpenAIResponseBackend.chunks _) in *.
  assert (R : forallb readable (until_done out) = true).
  { apply until_done_forallb. apply forallb_forall. intros c Hc.
    apply well_formed_readable.
    rewrite forallb_forall in W. exact (W c Hc). }
  unfold test_agent_timeout. rewrite agent_loop_until_done.
  pose proof (agent_loop_spec (until_done out) (mkLoop "" false)
                (until_done_idempotent out)) as H.
  rewrite R in H. rewrite H. eexists. split; reflexivity.
Qed.

Lemma prefix_lower (p s : string) :
  String.prefix p s = true -> String.prefix (lower p) (lower s) = true.
Proof.
  revert p. induction s as [|b s IH]; intros [|a p]; cbn; try reflexivity;
    try discriminate.
  destruct (ascii_dec a b) as [->|]; [|discriminate].
  intros H. destruct (ascii_dec (lower_char b) (lower_char b)); [|contradiction].
  apply IH, H.
Qed.

Lemma str_in_lower (p s : string) :
  str_in p s = true -> str_in (lower p) (lower s) = true.
Proof.
  induction s as [|b s IH]; cbn [str_in lower]; intros H;
    apply orb_true_iff in H; apply orb_true_iff.
  - destruct H as [H|H]; [|discriminate]. left. exact (prefix_lower p "" H).
  - destruct H as [H|H].
    + left. exact (prefix_lower p (String b s) H).
    + right. exact (IH H).
Qed.

(** The two loops side by side. *)
Lemma loops_agree (stream : list StreamChunk.t) (st st' : Loop) :
  response_content st = response_content st' ->
  (timeout_detected st = true -> timeout_detected st' = true) ->
  match agent_loop stream st, orchestrator_loop stream st' with
  | Return a, Return b =>
      response_content a = response_content b
      /\ (timeout_detected a = true -> timeout_detected b = true)
  | Raise e, Raise e' => e = e'
  | _, _ => False
  end.
Proof.
  revert st st'. induction stream as [|chunk rest IH]; intros st st' C T.
  - cbn. auto.
  - cbn [agent_loop orchestrator_loop].
    destruct (StreamChunk.is_type "content" chunk).
    + destruct (StreamChunk.content chunk) as [content|]; [|reflexivity].
      apply IH; cbn [response_content timeout_detected].
      * now rewrite C.
      * destruct (str_in "time limit exceeded" content) eqn:S.
        -- apply str_in_lower in S. change (lower "time limit exceeded")
             with "time limit exceeded" in S. rewrite S. reflexivity.
        -- intros H. rewrite (T H). destruct (_ || _); reflexivity.
    + destruct (StreamChunk.is_type "error" chunk).
      * destruct (StreamChunk.error chunk) as [error|]; [|reflexivity].
        apply IH; cbn [response_content timeout_detected]; [exact C|].
        destruct (str_in "time limit exceeded" (lower error)).
        -- reflexivity.
        -- intros H. rewrite (T H). destruct (_ || _); reflexivity.
      * destruct (StreamChunk.is_type "done" chunk); [auto|].
        apply IH; assumption.
Qed.

(** X27: on the same stream the two tests fail together, with the same
    failure, or collect the same text; and whenever [test_agent_timeout]
    detects a timeout, [test_orchestrator_timeout] detects one too. *)
Theorem X27_test_loops_agree (stream : list StreamChunk.t) :
  match test_agent_timeout stream, test_orchestrator_timeout stream with
  | Return a, Return b =>
      response_content a = response_content b
      /\ (timeout_detected a = true -> timeout_detected b = true)
  | Raise e, Raise e' => e = e'
  | _, _ => False
  end.
Proof.
  apply loops_agree; [reflexivity|discriminate].
Qed.

End TestLoopFacts.

(** ** Instances *)

(** An instance of X9: a system message and a user message. *)
Lemma X9_prepare_messages_witness :
  exists params,
    prepare (sample_backend sample_completed) sample_messages (Some sample_tools)
    = Return params
    /\ p_input params = [[("role", VStr "user"); ("content", VStr "Hi")]]
    /\ p_instructions params = Some (VStr "Be brief.").
Proof.
  eexists. split; [reflexivity|].
  destruct (X9_prepare_messages (sample_backend sample_completed) sample_messages
              (Some sample_tools) _ eq_refl) as (I & S & _).
  split; [exact I | exact S].
Defined.

(** An instance of X10: "o3-mini-high" with a configured temperature. *)
Lemma X10_prepare_o_series_witness :
  exists params,
    prepare (reasoning_backend sample_completed) sample_messages None
    = Return params
    /\ p_temperature params = None
    /\ p_reasoning params = Some "high"
    /\ p_model params = "o3-mini".
Proof.
  eexists. split; [reflexivity|].
  split; [|split; reflexivity].
  exact (proj1 (X10_prepare_o_series (reasoning_backend sample_completed)
                  sample_messages None _ eq_refl)).
Defined.

(** An instance of X11: of two tools, one is a dict. *)
Lemma X11_prepare_tools_witness :
  exists params formatted,
    prepare (sample_backend sample_completed) sample_messages (Some sample_tools)
    = Return params
    /\ p_tools params = Some formatted
    /\ forallb is_dict formatted = true.
Proof.
  eexists. eexists. split; [reflexivity|]. split; [reflexivity|].
  exact (proj1 (proj2 (X11_prepare_tools (sample_backend sample_completed)
                         sample_messages (Some sample_tools) _ eq_refl))).
Defined.

(** An instance of X12: ten input and twenty output tokens of "gpt-4o". *)
Lemma X12_calculate_cost_nonneg_witness :
  exists cost,
    calculate_cost (sample_runtime sample_completed) 10 20 "gpt-4o" = Return cost
    /\ (0 <=? cost)%float = true.
Proof.
  eexists. split; [reflexivity|].
  apply (X12_calculate_cost_nonneg (sample_runtime sample_completed) 10 20 "gpt-4o");
    [now vm_compute | lia | lia | reflexivity].
Defined.

(** An instance of X13: "o3-mini-high" costs what "o3-mini" costs, also
    when a fallback variable holds no number. *)
Lemma X13_calculate_cost_effort_suffix_witness :
  calculate_cost (misconfigured_runtime sample_completed) 10 20 "o3-mini-high"
  = calculate_cost (sample_runtime sample_completed) 10 20 "o3-mini".
Proof.
  refine (proj2 (proj2
    (X13_calculate_cost_effort_suffix (misconfigured_runtime sample_completed)
       (sample_runtime sample_completed) "o3-mini" "-high" 10 20 _ _))).
  - vm_compute. repeat (first [left; reflexivity | right]).
  - vm_compute. repeat (first [left; reflexivity | right]).
Defined.

(** An instance of X14: "gpt-5" is not in the table. *)
Lemma X14_calculate_cost_fallback_default_witness :
  calculate_cost (sample_runtime sample_completed) 10 20 "gpt-5"
  = calculate_cost (sample_runtime sample_completed) 10 20 "gpt-4o".
Proof.
  apply (X14_calculate_cost_fallback_default (sample_runtime sample_completed)
           10 20 "gpt-5");
    [reflexivity | reflexivity | reflexivity | reflexivity | reflexivity
    | intros message; reflexivity].
Defined.

(** An instance of X17: one delta, then a completion event reporting ten
    and twenty tokens. *)
Lemma X17_stream_never_lowers_usage_witness :
  TokenUsage.input_tokens (token_usage (sample_backend sample_completed))
  <= TokenUsage.input_tokens
       (token_usage
          (after (stream_with_tools (sample_runtime sample_completed) [] None
                    (sample_backend sample_completed)))).
Proof.
  refine (proj1
    (X17_stream_never_lowers_usage (sample_runtime sample_completed) [] None
       (sample_backend sample_completed) _ eq_refl _)).
  - now vm_compute.
  - intros response H. injection H as <-. reflexivity.
Defined.

(** An instance of X18: the run that completes yields the whole text. *)
Lemma X18_stream_text_witness :
  content_of
    (chunks (stream_with_tools (sample_runtime sample_completed) [] None
               (sample_backend sample_completed)))
  = "Hi".
Proof.
  exact (proj2
    (X18_stream_text (sample_runtime sample_completed) [] None
       (sample_backend sample_completed)
       (feed [text_delta "Hi"] (Next (completed_event usage_10_20) Stop))
       eq_refl) eq_refl).
Defined.

(** An instance of X19: a "response.created" event between the delta and
    the completion event. *)
Lemma X19_stream_ignores_unknown_events_witness :
  async_for (sample_runtime sample_completed)
    (feed [text_delta "Hi"]
       (Next created_event (Next (completed_event usage_10_20) Stop)))
    (mkLocals "" 0 0) (sample_backend sample_completed)
  = async_for (sample_runtime sample_completed)
      (feed [text_delta "Hi"] (Next (completed_event usage_10_20) Stop))
      (mkLocals "" 0 0) (sample_backend sample_completed).
Proof.
  exact (X19_stream_ignores_unknown_events (sample_runtime sample_completed)
           [text_delta "Hi"] created_event
           (Next (completed_event usage_10_20) Stop)
           (mkLocals "" 0 0) (sample_backend sample_completed) eq_refl).
Defined.

(** An instance of X20: the model is not priced and
    [FALLBACK_INPUT_RATE] holds no number. *)
Lemma X20_stream_cost_failure_witness :
  stream_with_tools (misconfigured_runtime sample_completed) [] None
    (unpriced_backend sample_completed)
  = ([content_chunk "Hi"; error_chunk (value_error "abc")],
     unpriced_backend sample_completed, Return tt).
Proof.
  exact (proj1
    (X20_stream_cost_failure (misconfigured_runtime sample_completed) [] None
       (unpriced_backend sample_completed) [text_delta "Hi"]
       (completed_event usage_10_20) Stop (value_error "abc")
       eq_refl eq_refl eq_refl eq_refl)).
Defined.

(** An instance of X21: [create_backend("openai", "gpt-4o",
    api_key="sk-test")]. *)
Lemma X21_create_backend_result_witness :
  exists backend,
    create_backend (sample_runtime sample_completed) "openai" "gpt-4o"
      (mkConfig None (Some "sk-test") None None)
    = Return backend
    /\ model backend = "gpt-4o"
    /\ TokenUsage.totals (token_usage backend) = (0, 0, 0%float).
Proof.
  eexists. split; [reflexivity|].
  destruct (X21_create_backend_result (sample_runtime sample_completed)
              "openai" "gpt-4o" (mkConfig None (Some "sk-test") None None)
              _ eq_refl) as (M & _ & U & _).
  split; [exact M | exact U].
Defined.

(** An instance of X23: "o3-mini-high". *)
Lemma X23_priced_models_are_openai_witness :
  get_provider_from_model "o3-mini-high" = "openai".
Proof.
  refine (X23_priced_models_are_openai "o3-mini" "-high" _ _).
  - vm_compute. repeat (first [left; reflexivity | right]).
  - vm_compute. repeat (first [left; reflexivity | right]).
Defined.

(** An instance of X24: an [error] chunk after the [done] chunk. *)
Lemma X24_agent_loop_stops_at_done_witness :
  TestTimeout.test_agent_timeout
    ([content_chunk "Hi"] ++ done_chunk :: [error_chunk connection_error])%list
  = TestTimeout.test_agent_timeout ([content_chunk "Hi"] ++ [done_chunk])%list.
Proof.
  exact (X24_agent_loop_stops_at_done [content_chunk "Hi"]
           [error_chunk connection_error] done_chunk eq_refl).
Defined.
